(** * MY-PERFECT-MEAL: the feature-vector and retrain pipeline

    A shallow embedding of [data_ml.py] (feature encoding on the training
    and on the prediction path, training-data extraction, retraining and
    prediction) and of the keyword selection of [LAUNCHER.py], followed by
    the properties the specification states about them.

    Conventions of the embedding.
    - Python values are the inductive [pyval]; a [float] is a binary64
      IEEE number, as in CPython.
    - Text is [string]; its characters are in the ASCII range, on which
      [str.title] is modelled exactly.
    - A raised exception is the [Err] branch of [result]; exceptions
      raised by the interpreter carry their class only, those raised by
      the code carry their message.
    - The TEXT columns [cuisines], [tastes] and [price_range] of a search
      row are held as the value [json.loads] returns on them.
    - [numpy.array] around the extracted rows and the console output of
      [prepare_feature_vector] are not modelled. *)

From Stdlib Require Import ZArith Ascii String PrimFloat.
From Stdlib Require Uint63.
From stdpp Require Import base option list strings gmap pretty sorting.

Set Warnings "-inexact-float".

Open Scope string_scope.
Open Scope Z_scope.
Open Scope list_scope.

(** ** Python values and exceptions *)

#[warnings="-register-all"]
Inductive pyval : Type :=
| PNone
| PBool (b : bool)
| PInt (z : Z)
| PFloat (f : float)
| PStr (s : string)
| PList (l : list pyval)
| PDict (kv : list (string * pyval)).

Inductive exn : Type :=
| ValueError (msg : string)
| TypeError
| IndexError
| KeyError
| AttributeError
| NameError (name : string)
| RuntimeError (prefix : string) (cause : exn).

Inductive result (A : Type) : Type :=
| Ok (a : A)
| Err (e : exn).
Arguments Ok {A} a.
Arguments Err {A} e.

(** Sequencing of statements: the first exception raised propagates. *)
#[global] Instance result_bind : MBind result := fun A B k r =>
  match r with
  | Ok a => k a
  | Err e => Err e
  end.
#[global] Instance result_ret : MRet result := fun A a => Ok a.

(** ** Text: [str.title] *)

Definition is_upper (c : ascii) : bool :=
  let n := N_of_ascii c in (65 <=? n)%N && (n <=? 90)%N.

Definition is_lower (c : ascii) : bool :=
  let n := N_of_ascii c in (97 <=? n)%N && (n <=? 122)%N.

Definition is_cased (c : ascii) : bool := is_upper c || is_lower c.

Definition to_lower (c : ascii) : ascii :=
  if is_upper c then ascii_of_N (N_of_ascii c + 32) else c.

Definition to_upper (c : ascii) : ascii :=
  if is_lower c then ascii_of_N (N_of_ascii c - 32) else c.

(** [str.title]: a character that follows a cased character is lowered,
    any other character is put in title case. *)
Fixpoint title_from (previous_is_cased : bool) (s : string) : string :=
  match s with
  | EmptyString => EmptyString
  | String c s' =>
      String (if previous_is_cased then to_lower c else to_upper c)
             (title_from (is_cased c) s')
  end.

Definition title (s : string) : string := title_from false s.

(** [w in s] on two strings: [w] occurs in [s] as a substring. *)
Fixpoint substringb (w s : string) : bool :=
  String.prefix w s ||
  match s with
  | EmptyString => false
  | String _ s' => substringb w s'
  end.

(** The characters of a string, each as a string of length one. *)
Fixpoint chars (s : string) : list string :=
  match s with
  | EmptyString => []
  | String c s' => String c EmptyString :: chars s'
  end.

(** ** Python operators used by the encoders *)

(** [v == s] for a string literal [s]. *)
Definition str_eq (v : pyval) (s : string) : bool :=
  match v with
  | PStr t => bool_decide (t = s)
  | _ => false
  end.

(** [v == 1]: numbers compare by value, and [True] is the integer 1. *)
Definition eq_one (v : pyval) : bool :=
  match v with
  | PInt z => bool_decide (z = 1)
  | PBool b => b
  | PFloat f => PrimFloat.eqb f 1%float
  | _ => false
  end.

(** [w in container] for a string [w]. *)
Definition py_contains (w : string) (container : pyval) : result bool :=
  match container with
  | PList l => Ok (existsb (fun v => str_eq v w) l)
  | PStr s => Ok (substringb w s)
  | PDict kv => Ok (existsb (fun p => bool_decide (p.1 = w)) kv)
  | PNone | PBool _ | PInt _ | PFloat _ => Err TypeError
  end.

(** [[c.title() for c in items]]. *)
Definition title_all (items : pyval) : result pyval :=
  match items with
  | PList l =>
      l' ← mapM (M := result) (fun c => match c with
                        | PStr s => Ok (PStr (title s))
                        | _ => Err AttributeError
                        end) l;
      Ok (PList l')
  | PStr s => Ok (PList (PStr ∘ title <$> chars s))
  | PDict kv => Ok (PList ((fun p => PStr (title p.1)) <$> kv))
  | PNone | PBool _ | PInt _ | PFloat _ => Err TypeError
  end.

(** [[1 if w in container else 0 for w in vocabulary]]. *)
Definition one_hot (vocabulary : list string) (container : pyval)
  : result (list pyval) :=
  mapM (M := result) (fun w => b ← py_contains w container;
                 Ok (PInt (if b : bool then 1 else 0))) vocabulary.

(** [d.get(key, default)] on a dict with string keys: an unhashable key
    raises, a key that is no string finds nothing. *)
Definition dict_get (d : gmap string pyval) (key dflt : pyval)
  : result pyval :=
  match key with
  | PStr s => Ok (default dflt (d !! s))
  | PList _ | PDict _ => Err TypeError
  | PNone | PBool _ | PInt _ | PFloat _ => Ok dflt
  end.

(** [v[i]] for an index literal [i]. *)
Definition py_getitem (v : pyval) (i : nat) : result pyval :=
  match v with
  | PList l => match l !! i with Some x => Ok x | None => Err IndexError end
  | PStr s => match chars s !! i with
              | Some c => Ok (PStr c)
              | None => Err IndexError
              end
  | PDict _ => Err KeyError
  | PNone | PBool _ | PInt _ | PFloat _ => Err TypeError
  end.

(** ** The feature schema *)

Definition all_cuisines : list string :=
  ["Italian"; "American"; "Mexican"; "Japanese"; "Asian"; "European";
   "Mediterranean"; "Thai"].

Definition all_tastes : list string :=
  ["Sweet"; "Salty"; "Sour"; "Bitter"; "Umami"; "Spicy"].

Definition emotion_map : gmap string pyval :=
  <["happy" := PInt 2]> (<["neutral" := PInt 1]> (<["sad" := PInt 0]> ∅)).

Definition diet_vector (diet : pyval) : list pyval :=
  [PInt (if str_eq diet "Vegan" then 1 else 0);
   PInt (if str_eq diet "Vegetarian" then 1 else 0);
   PInt (if str_eq diet "None" then 1 else 0)].

(** ** The store *)

Record UserRow : Type := {
  u_user_id : Z;
  u_temperature_bias : pyval;
  u_tourist_bias : pyval;
  u_emotion : pyval
}.

Record SearchRow : Type := {
  s_user_id : Z;
  s_cuisines : pyval;
  s_tastes : pyval;
  s_diet : pyval;
  s_price_range : pyval
}.

Record InteractionRow : Type := {
  i_user_id : Z;
  i_feedback : pyval
}.

(** The three tables, each in row order. *)
Record Database : Type := {
  Users : list UserRow;
  Searches : list SearchRow;
  Interactions : list InteractionRow
}.

(** The dict [get_user_data] returns for the user row it finds. *)
Definition user_info_of_row (row : UserRow) : gmap string pyval :=
  <["temperature_bias" := u_temperature_bias row]>
    (<["tourist_bias" := u_tourist_bias row]>
       (<["emotion" := u_emotion row]> ∅)).

(** The dict [get_recent_search] builds from the search row it selects. *)
Definition recent_search_of_row (row : SearchRow) : gmap string pyval :=
  <["cuisines" := s_cuisines row]>
    (<["tastes" := s_tastes row]>
       (<["diet" := s_diet row]>
          (<["price_range" := s_price_range row]> ∅))).

(** ** Training-data extraction: [prepare_training_data] *)

(** The user part of a training row: both biases as stored, and the
    emotion code. *)
Definition training_user_features (user_row : UserRow)
  : result (list pyval) :=
  let temperature_bias := u_temperature_bias user_row in
  let tourist_bias := u_tourist_bias user_row in
  emotion ← dict_get emotion_map (u_emotion user_row) (PInt 1);
  Ok [temperature_bias; tourist_bias; emotion].

(** The search part of a training row. *)
Definition training_search_features (search_row : SearchRow)
  : result (list pyval) :=
  let cuisines := s_cuisines search_row in
  let tastes := s_tastes search_row in
  let diet := s_diet search_row in
  let price_range := s_price_range search_row in
  cuisine_vector ← one_hot all_cuisines cuisines;
  taste_vector ← one_hot all_tastes tastes;
  price_min ← py_getitem price_range 0;
  price_max ← py_getitem price_range 1;
  Ok (cuisine_vector ++ taste_vector ++ diet_vector diet
        ++ [price_min; price_max]).

(** The feature vector the loop body builds from a user row and the
    search row it selected. *)
Definition training_feature_vector (user_row : UserRow)
    (search_row : SearchRow) : result (list pyval) :=
  user_part ← training_user_features user_row;
  search_part ← training_search_features search_row;
  Ok (user_part ++ search_part).

(** [users_df[users_df['user_id'] == user_id]] and
    [searches_df[searches_df['user_id'] == user_id]], in row order. *)
Definition users_of (db : Database) (user_id : Z) : list UserRow :=
  filter (fun u => u_user_id u = user_id) (Users db).

Definition searches_of (db : Database) (user_id : Z) : list SearchRow :=
  filter (fun s => s_user_id s = user_id) (Searches db).

(** One iteration of the loop over the interactions: [data] and [labels]
    grow by one entry, or are left as they are when the user has no
    search ([continue]). *)
Definition training_step (db : Database) (interaction : InteractionRow)
    (acc : list (list pyval) * list pyval)
  : result (list (list pyval) * list pyval) :=
  let user_id := i_user_id interaction in
  let feedback := i_feedback interaction in
  user_row ← match users_of db user_id with
             | row :: _ => Ok row
             | [] => Err IndexError
             end;
  user_part ← training_user_features user_row;
  match last (searches_of db user_id) with
  | None => Ok acc
  | Some search_row =>
      search_part ← training_search_features search_row;
      Ok (acc.1 ++ [user_part ++ search_part], acc.2 ++ [feedback])
  end.

Fixpoint training_loop (db : Database) (rows : list InteractionRow)
    (acc : list (list pyval) * list pyval)
  : result (list (list pyval) * list pyval) :=
  match rows with
  | [] => Ok acc
  | interaction :: rest =>
      acc' ← training_step db interaction acc;
      training_loop db rest acc'
  end.

Definition prepare_training_data (db : Database)
  : result (list (list pyval) * list pyval) :=
  training_loop db (Interactions db) ([], []).

(** ** Single-instance encoding: [prepare_feature_vector] *)

(** The first three entries: the biases, 0.5 where the key is missing, and
    the emotion code. *)
Definition prediction_user_features (user_info : gmap string pyval)
  : result (list pyval) :=
  let temperature_bias :=
    default (PFloat 0.5%float) (user_info !! "temperature_bias") in
  let tourist_bias :=
    default (PFloat 0.5%float) (user_info !! "tourist_bias") in
  emotion ← dict_get emotion_map
              (default (PStr "neutral") (user_info !! "emotion")) (PInt 1);
  Ok [temperature_bias; tourist_bias; emotion].

(** The price pair: the two entries of a list of length two, [1, 4] for
    anything else. *)
Definition price_pair (price_range : pyval) : pyval * pyval :=
  match price_range with
  | PList [price_min; price_max] => (price_min, price_max)
  | _ => (PInt 1, PInt 4)
  end.

(** The remaining nineteen entries, from the search. *)
Definition prediction_search_features (recent_search : gmap string pyval)
  : result (list pyval) :=
  cuisines ← title_all (default (PList []) (recent_search !! "cuisines"));
  cuisine_vector ← one_hot all_cuisines cuisines;
  tastes ← title_all (default (PList []) (recent_search !! "tastes"));
  taste_vector ← one_hot all_tastes tastes;
  let diet := default (PStr "None") (recent_search !! "diet") in
  let price :=
    price_pair (default (PList [PInt 1; PInt 4])
                        (recent_search !! "price_range")) in
  Ok (cuisine_vector ++ taste_vector ++ diet_vector diet
        ++ [price.1; price.2]).

Definition prepare_feature_vector (user_info recent_search : gmap string pyval)
  : result (list pyval) :=
  user_part ← prediction_user_features user_info;
  search_part ← prediction_search_features recent_search;
  Ok (user_part ++ search_part).

(** ** The classifier and the process-wide model *)

(** What the pipeline uses of the classifier: a fresh unfitted estimator
    ([RandomForestClassifier(random_state=42)]), [fit] and [predict]. *)
Class Estimator (M : Type) : Type := {
  new_estimator : M;
  fit : M -> list (list pyval) -> list pyval -> result M;
  predict : M -> list (list pyval) -> result (list pyval)
}.

(** The global [rf_model] and the content of the file at [MODEL_PATH]. *)
Record MLState (M : Type) : Type := {
  rf_model : option M;
  model_file : option M
}.
Arguments rf_model {M} _.
Arguments model_file {M} _.

(** Import of [data_ml]: the model is loaded if the file exists. *)
Definition module_import {M : Type} (file : option M) : MLState M :=
  {| rf_model := file; model_file := file |}.

Definition model_not_loaded : string :=
  "Model not loaded. Please ensure the model file exists and is loaded correctly.".

Definition predict_meal_recommendations `{Estimator M} (st : MLState M)
    (feature_vector : list pyval) : result pyval :=
  match
    match rf_model st with
    | None => Err (ValueError model_not_loaded)
    | Some model =>
        predictions ← predict model [feature_vector];
        match predictions with
        | prediction :: _ => Ok prediction
        | [] => Err IndexError
        end
    end
  with
  | Ok prediction => Ok prediction
  | Err e => Err (RuntimeError "Error during prediction: " e)
  end.

Definition retraining : string :=
  "Retraining the Random Forest model with real user data...".
Definition insufficient_data : string :=
  "Insufficient data for model training. Retraining aborted.".
Definition model_saved : string :=
  "Model saved at random_forest_model.pkl.".
Definition retrained : string :=
  "Model retrained and saved successfully.".

(** [retrain_model]: the state it leaves, the lines it prints, and whether
    it returned ([None]) or raised. *)
Definition retrain_model `{Estimator M} (db : Database) (st : MLState M)
  : MLState M * list string * result unit :=
  match prepare_training_data db with
  | Err e => (st, [retraining], Err e)
  | Ok (X, y) =>
      if bool_decide (length X = 0%nat) || bool_decide (length y = 0%nat)
      then (st, [retraining; insufficient_data], Ok tt)
      else
        let st' := {| rf_model := Some new_estimator;
                      model_file := model_file st |} in
        match fit new_estimator X y with
        | Err e => (st', [retraining], Err e)
        | Ok model =>
            ({| rf_model := Some model; model_file := Some model |},
             [retraining; model_saved; retrained], Ok tt)
        end
  end.

(** ** The launcher: [surprise_me_recommendation] up to the keywords *)

(** [recent_search['cuisines'] if prediction == 1 else ["restaurant"]]. *)
Definition keywords (prediction : pyval) (recent_search : gmap string pyval)
  : result pyval :=
  if eq_one prediction
  then match recent_search !! "cuisines" with
       | Some cuisines => Ok cuisines
       | None => Err KeyError
       end
  else Ok (PList [PStr "restaurant"]).

(** The [try] block up to the keywords, from what the two store reads
    returned or raised. [LAUNCHER.py] binds no name [rf_model]: it is not
    among the names imported from [data_ml]. *)
Definition surprise_me_keywords
    (fetched_user_info fetched_recent_search : result (gmap string pyval))
  : result pyval :=
  match
    user_info ← fetched_user_info;
    recent_search ← fetched_recent_search;
    if bool_decide (size user_info = 0%nat)
       || bool_decide (size recent_search = 0%nat)
    then Err (ValueError "Missing user data or recent search data.")
    else
      feature_vector ← prepare_feature_vector user_info recent_search;
      prediction ← Err (A := pyval) (NameError "rf_model");
      keywords prediction recent_search
  with
  | Ok selected => Ok selected
  | Err e => Err (RuntimeError "An error occurred during recommendation: " e)
  end.

(** ** Shapes of stored values *)

(** A Python list of strings. *)
Definition strings (l : list string) : pyval := PList (PStr <$> l).

(** Values [in] accepts on its right: lists, strings and dicts. *)
Definition is_container (v : pyval) : bool :=
  match v with
  | PList _ | PStr _ | PDict _ => true
  | PNone | PBool _ | PInt _ | PFloat _ => false
  end.

(** Values a dict accepts as a key. *)
Definition hashable (v : pyval) : bool :=
  match v with
  | PList _ | PDict _ => false
  | PNone | PBool _ | PInt _ | PFloat _ | PStr _ => true
  end.

(** Values with an entry at index 0 and at index 1. *)
Definition has_two_items (v : pyval) : bool :=
  match v with
  | PList (_ :: _ :: _) => true
  | PStr (String _ (String _ _)) => true
  | _ => false
  end.

(** [w in container] on a collection, as a plain boolean. *)
Definition member (w : string) (container : pyval) : bool :=
  match container with
  | PList l => existsb (fun v => str_eq v w) l
  | PStr s => substringb w s
  | PDict kv => existsb (fun p => bool_decide (p.1 = w)) kv
  | _ => false
  end.

(** The scenario of the specification. *)
Definition scenario_user : gmap string pyval :=
  <["temperature_bias" := PFloat 0.8%float]>
    (<["tourist_bias" := PFloat 0.2%float]>
       (<["emotion" := PStr "happy"]> ∅)).

Definition scenario_search : gmap string pyval :=
  <["cuisines" := strings ["italian"]]>
    (<["tastes" := PList []]>
       (<["diet" := PStr "Vegetarian"]>
          (<["price_range" := PList [PInt 1; PInt 3]]> ∅))).

(** A small classifier to run the pipeline on: it answers with the first
    label it was fitted on. *)
#[global] Instance first_label_estimator : Estimator (option pyval) := {
  new_estimator := None;
  fit _ X y := Ok (head y);
  predict model rows :=
    match model with
    | Some label => Ok ((fun _ => label) <$> rows)
    | None => Err (ValueError "This estimator instance is not fitted yet.")
    end
}.

(** The scenario as rows of the store: user 1 and their only search. *)
Definition scenario_user_row : UserRow := {|
  u_user_id := 1;
  u_temperature_bias := PFloat 0.8%float;
  u_tourist_bias := PFloat 0.2%float;
  u_emotion := PStr "happy"
|}.

Definition scenario_search_row : SearchRow := {|
  s_user_id := 1;
  s_cuisines := strings ["italian"];
  s_tastes := PList [];
  s_diet := PStr "Vegetarian";
  s_price_range := PList [PInt 1; PInt 3]
|}.

(** A store in its early life: user 1 has given feedback and has not
    searched yet. *)
Definition early_store : Database := {|
  Users := [scenario_user_row];
  Searches := [];
  Interactions := [{| i_user_id := 1; i_feedback := PInt 1 |}]
|}.

(** The emotions the encoders know. *)
Definition listed_emotion (e : pyval) : bool :=
  str_eq e "happy" || str_eq e "neutral" || str_eq e "sad".

(** What the schema and the writers of the store guarantee: every
    interaction belongs to a stored user, an emotion is a value a dict can
    look up, the cuisines and tastes of a search are collections and its
    price range has a first and a second entry. *)
Definition well_formed (db : Database) : Prop :=
  (forall i, i ∈ Interactions db -> users_of db (i_user_id i) <> [])
  /\ (forall u, u ∈ Users db -> hashable (u_emotion u) = true)
  /\ (forall s, s ∈ Searches db ->
        is_container (s_cuisines s) = true
        /\ is_container (s_tastes s) = true
        /\ has_two_items (s_price_range s) = true).

(** What one interaction adds to the training set: nothing when its user
    has no search, else the one pair of the vector encoded from the user
    row and the user's last search, and the feedback. *)
Definition contribution (db : Database) (i : InteractionRow)
    (pairs : list (list pyval * pyval)) : Prop :=
  match last (searches_of db (i_user_id i)) with
  | None => pairs = []
  | Some search_row =>
      exists user_row v,
        head (users_of db (i_user_id i)) = Some user_row
        /\ training_feature_vector user_row search_row = Ok v
        /\ pairs = [(v, i_feedback i)]
  end.

(** The store of the retrain scenario: user 1, one search, one like. *)
Definition scenario_store : Database := {|
  Users := [scenario_user_row];
  Searches := [scenario_search_row];
  Interactions := [{| i_user_id := 1; i_feedback := PInt 1 |}]
|}.

(** Two users of whom only user 1 has searched; both have given
    feedback. *)
Definition partial_store : Database := {|
  Users := [scenario_user_row;
            {| u_user_id := 2; u_temperature_bias := PFloat 0.5%float;
               u_tourist_bias := PFloat 0.5%float; u_emotion := PNone |}];
  Searches := [scenario_search_row];
  Interactions := [{| i_user_id := 2; i_feedback := PInt 0 |};
                   {| i_user_id := 1; i_feedback := PInt 1 |}]
|}.

(** A search whose entries are written in lower case. *)
Definition lowercase_search_row : SearchRow := {|
  s_user_id := 1;
  s_cuisines := strings ["thai"];
  s_tastes := strings ["spicy"];
  s_diet := PStr "None";
  s_price_range := PList [PInt 1; PInt 4]
|}.

(** Searches whose price range has one entry, and three. *)
Definition short_price_search_row : SearchRow := {|
  s_user_id := 1;
  s_cuisines := strings ["Italian"];
  s_tastes := PList [];
  s_diet := PStr "Vegetarian";
  s_price_range := PList [PInt 2]
|}.

Definition long_price_search_row : SearchRow := {|
  s_user_id := 1;
  s_cuisines := strings ["Italian"];
  s_tastes := PList [];
  s_diet := PStr "Vegetarian";
  s_price_range := PList [PInt 1; PInt 2; PInt 3]
|}.

(** A user whose stored emotion is none of the three the encoders know. *)
Definition excited_user_row : UserRow := {|
  u_user_id := 3;
  u_temperature_bias := PFloat 0.6%float;
  u_tourist_bias := PFloat 0.8%float;
  u_emotion := PStr "excited"
|}.

(** * The rest of the pipeline

    The survey, the readers and writers of the store, and the actions of
    the launcher that call them. Further conventions.
    - One store stands for the file at [DB_PATH], the default of every
      [db_path] and the file [record_interaction] and
      [save_user_preferences] open whatever they are passed.
    - [CURRENT_TIMESTAMP] is the argument [now] of a writer, in seconds.
    - A value written with [json.dumps] reads back with [json.loads] as
      the value it was; a tuple is the list it reads back as.
    - Calls to the map, place and weather services are not modelled. *)

(** ** The preference survey *)

(** [d.get(key, default)] on a dict with string keys, whatever the type
    of its values. *)
Definition dict_get_as {V : Type} (d : gmap string V) (key : pyval) (dflt : V)
  : result V :=
  match key with
  | PStr s => Ok (default dflt (d !! s))
  | PList _ | PDict _ => Err TypeError
  | PNone | PBool _ | PInt _ | PFloat _ => Ok dflt
  end.

(** The [mapping] of [calculate_temperature_bias]. *)
Definition temperature_mapping : gmap string Z :=
  <["Strongly Agree" := 5]>
    (<["Agree" := 4]>
       (<["Indifferent" := 3]>
          (<["Disagree" := 2]> (<["Strongly Disagree" := 1]> ∅)))).

(** [(cold_bias + warm_bias) / 10]: the true division of two integers,
    both exact as floats here. *)
Definition calculate_temperature_bias (q1 q2 : pyval) : result pyval :=
  cold_bias ← dict_get_as temperature_mapping q1 3;
  warm_bias ← dict_get_as temperature_mapping q2 3;
  Ok (PFloat (PrimFloat.of_uint63 (Uint63.of_Z (cold_bias + warm_bias))
              / 10)%float).

(** The [mapping] of [calculate_tourist_bias]. *)
Definition tourist_mapping : gmap string float :=
  <["Strongly Agree" := 1%float]>
    (<["Agree" := 0.8%float]>
       (<["Indifferent" := 0.5%float]>
          (<["Disagree" := 0.2%float]>
             (<["Strongly Disagree" := 0%float]> ∅)))).

Definition calculate_tourist_bias (q3 : pyval) : result pyval :=
  bias ← dict_get_as tourist_mapping q3 0.5%float;
  Ok (PFloat bias).

(** The five answers of the survey. *)
Definition responses : list string :=
  ["Strongly Agree"; "Agree"; "Indifferent"; "Disagree"; "Strongly Disagree"].

(** A float between two bounds, both included. *)
Definition float_between (lo hi : float) (v : pyval) : bool :=
  match v with
  | PFloat f => (lo <=? f)%float && (f <=? hi)%float
  | _ => false
  end.

(** ** The store with the columns its writers fill *)

(** A [Users] row with its [username] and the JSON text of
    [other_preferences]; a [Searches] row with its [location], [emotion]
    and [timestamp], the time in seconds; an [Interactions] row with its
    [meal_id]. The generated ids of searches and interactions and the
    timestamp of an interaction are read nowhere and left out. *)
Record UserRecord : Type := {
  ur_row : UserRow;
  ur_username : string;
  ur_other_preferences : string
}.

Record SearchRecord : Type := {
  sr_row : SearchRow;
  sr_location : pyval;
  sr_emotion : pyval;
  sr_timestamp : Z
}.

Record InteractionRecord : Type := {
  ir_row : InteractionRow;
  ir_meal_id : string
}.

Record Store : Type := {
  user_records : list UserRecord;
  search_records : list SearchRecord;
  interaction_records : list InteractionRecord
}.

(** What [prepare_training_data] reads of the store. *)
Definition tables (st : Store) : Database := {|
  Users := ur_row <$> user_records st;
  Searches := sr_row <$> search_records st;
  Interactions := ir_row <$> interaction_records st
|}.

(** [json.dumps], as the library provides it. *)
Class JsonWriter : Type := json_dumps : pyval -> string.

(** ** Readers of the store *)

(** [get_user_data]: the three values of the user's row, or [ValueError]
    when no row has the id. *)
Definition get_user_data (user_id : Z) (db : Database)
  : result (gmap string pyval) :=
  match users_of db user_id with
  | row :: _ => Ok (user_info_of_row row)
  | [] => Err (ValueError ("No user data found for user_id "
                           +:+ pretty user_id))
  end.

(** The searches of a user, in row order. *)
Definition search_records_of (st : Store) (user_id : Z) : list SearchRecord :=
  filter (fun r => s_user_id (sr_row r) = user_id) (search_records st).

(** [ORDER BY timestamp DESC LIMIT 1]: a search of the user that no other
    search of the user is later than. Among searches of the same second
    the query may answer any. *)
Definition most_recent (st : Store) (user_id : Z) (r : SearchRecord) : Prop :=
  r ∈ search_records_of st user_id
  /\ forall r', r' ∈ search_records_of st user_id ->
                sr_timestamp r' <= sr_timestamp r.

(** [get_recent_search]: what a call may return or raise. *)
Inductive get_recent_search (user_id : Z) (st : Store)
  : result (gmap string pyval) -> Prop :=
| recent_search_found (r : SearchRecord) :
    most_recent st user_id r ->
    get_recent_search user_id st (Ok (recent_search_of_row (sr_row r)))
| recent_search_missing :
    search_records_of st user_id = [] ->
    get_recent_search user_id st
      (Err (ValueError ("No recent searches found for user_id "
                        +:+ pretty user_id))).

(** ** Writers of the store *)

(** The id [AUTOINCREMENT] gives the next user: one more than the
    greatest id in the table, which no statement of the code deletes
    from; 1 in an empty table. *)
Definition next_user_id (st : Store) : Z :=
  1 + foldr Z.max 0 (u_user_id ∘ ur_row <$> user_records st).

(** The dict [get_or_create_user] returns for a row. *)
Definition user_info_of_record (u : UserRecord) : gmap string pyval :=
  <["user_id" := PInt (u_user_id (ur_row u))]>
    (<["temperature_bias" := u_temperature_bias (ur_row u)]>
       (<["tourist_bias" := u_tourist_bias (ur_row u)]>
          (<["emotion" := u_emotion (ur_row u)]>
             (<["other_preferences" := PStr (ur_other_preferences u)]> ∅)))).

(** The row of a user created with the default values. *)
Definition new_user (user_id : Z) (username : string) : UserRecord := {|
  ur_row := {| u_user_id := user_id;
               u_temperature_bias := PFloat 0.5%float;
               u_tourist_bias := PFloat 0.5%float;
               u_emotion := PStr "neutral" |};
  ur_username := username;
  ur_other_preferences := "{}"
|}.

(** [get_or_create_user]: the user's dict, whether the user is new, and
    the store afterwards. *)
Definition get_or_create_user (username : string) (st : Store)
  : gmap string pyval * bool * Store :=
  match filter (fun u => ur_username u = username) (user_records st) with
  | row :: _ => (user_info_of_record row, false, st)
  | [] =>
      let user := new_user (next_user_id st) username in
      (user_info_of_record user, true,
       {| user_records := user_records st ++ [user];
          search_records := search_records st;
          interaction_records := interaction_records st |})
  end.

(** [UPDATE Users SET ... WHERE user_id=?]. *)
Definition update_user (user_id : Z) (set : UserRecord -> UserRecord)
    (st : Store) : Store := {|
  user_records :=
    (fun u => if decide (u_user_id (ur_row u) = user_id) then set u else u)
      <$> user_records st;
  search_records := search_records st;
  interaction_records := interaction_records st
|}.

Definition save_user_setup (user_id : Z) (emotion : pyval) (st : Store)
  : Store :=
  update_user user_id
    (fun u => {| ur_row := {| u_user_id := u_user_id (ur_row u);
                              u_temperature_bias :=
                                u_temperature_bias (ur_row u);
                              u_tourist_bias := u_tourist_bias (ur_row u);
                              u_emotion := emotion |};
                 ur_username := ur_username u;
                 ur_other_preferences := ur_other_preferences u |}) st.

Definition save_user_preferences `{JsonWriter} (user_id : Z)
    (q1 q2 q3 : pyval) (st : Store) : result Store :=
  let preferences := PDict [("q1", q1); ("q2", q2); ("q3", q3)] in
  let preferences_json := json_dumps preferences in
  temperature_bias ← calculate_temperature_bias q1 q2;
  tourist_bias ← calculate_tourist_bias q3;
  Ok (update_user user_id
        (fun u => {| ur_row := {| u_user_id := u_user_id (ur_row u);
                                  u_temperature_bias := temperature_bias;
                                  u_tourist_bias := tourist_bias;
                                  u_emotion := u_emotion (ur_row u) |};
                     ur_username := ur_username u;
                     ur_other_preferences := preferences_json |}) st).

(** [save_search_query] at the time [now]: the lists are written as JSON
    text, which reads back as the lists. *)
Definition save_search_query (user_id : Z)
    (cuisines tastes diet price_range location emotion : pyval) (now : Z)
    (st : Store) : Store := {|
  user_records := user_records st;
  search_records :=
    search_records st ++
    [{| sr_row := {| s_user_id := user_id; s_cuisines := cuisines;
                     s_tastes := tastes; s_diet := diet;
                     s_price_range := price_range |};
        sr_location := location; sr_emotion := emotion;
        sr_timestamp := now |}];
  interaction_records := interaction_records st
|}.

Definition meal_id_map : gmap Z string :=
  <[0 := "Italian"]> (<[1 := "American"]> (<[2 := "Mexican"]>
    (<[3 := "Japanese"]> (<[4 := "Asian"]> (<[5 := "European"]>
      (<[6 := "Mediterranean"]> (<[7 := "Thai"]> ∅))))))).

Definition record_interaction (user_id : Z) (meal_id_index : Z)
    (feedback : pyval) (st : Store) : Store :=
  let meal_id := default "Unknown" (meal_id_map !! meal_id_index) in
  {| user_records := user_records st;
     search_records := search_records st;
     interaction_records :=
       interaction_records st ++
       [{| ir_row := {| i_user_id := user_id; i_feedback := feedback |};
           ir_meal_id := meal_id |}] |}.

(** The constraints of the [Users] table: [user_id] is its primary key
    and [username] is unique. *)
Definition unique_users (st : Store) : Prop :=
  NoDup (u_user_id ∘ ur_row <$> user_records st)
  /\ NoDup (ur_username <$> user_records st).

(** The store [init_db] creates in a new file: three empty tables. *)
Definition empty_store : Store :=
  {| user_records := []; search_records := []; interaction_records := [] |}.

(** A writer to run the pipeline on: the JSON text of a dict of strings
    that need no escaping; [null] stands for every other value. *)
Definition double_quote : string := String (ascii_of_N 34) EmptyString.

Definition plain_json_string (v : pyval) : string :=
  match v with
  | PStr s => double_quote +:+ s +:+ double_quote
  | _ => "null"
  end.

Fixpoint plain_json_items (kv : list (string * pyval)) : string :=
  match kv with
  | [] => EmptyString
  | [(k, v)] => plain_json_string (PStr k) +:+ ": " +:+ plain_json_string v
  | (k, v) :: rest =>
      plain_json_string (PStr k) +:+ ": " +:+ plain_json_string v +:+ ", "
        +:+ plain_json_items rest
  end.

#[global] Instance plain_json_writer : JsonWriter := fun v =>
  match v with
  | PDict kv => "{" +:+ plain_json_items kv +:+ "}"
  | _ => plain_json_string v
  end.

(** The searches of a user were saved in different seconds, one after
    the other. *)
Definition chronological (st : Store) (user_id : Z) : Prop :=
  StronglySorted (fun r r' => sr_timestamp r < sr_timestamp r')
    (search_records_of st user_id).

(** [str.lower] on text in the ASCII range. *)
Fixpoint lowercase (s : string) : string :=
  match s with
  | EmptyString => EmptyString
  | String c s' => String (to_lower c) (lowercase s')
  end.

(** The cuisines the search form of the launcher offers. *)
Definition cuisine_options : list string :=
  ["Italian"; "Chinese"; "Mexican"; "Japanese"; "Indian"; "American";
   "Thai"; "French"; "Greek"; "Spanish"].

(** A flag: the integer 0 or 1. *)
Definition is_flag (v : pyval) : Prop := v = PInt 0 \/ v = PInt 1.

(** A classifier whose fit always fails. *)
#[global] Instance unfittable_estimator : Estimator unit := {
  new_estimator := tt;
  fit _ _ _ := Err (ValueError "Input contains NaN.");
  predict _ _ := Err (ValueError "This estimator instance is not fitted yet.")
}.

(** A store whose only search has a price range of one entry. *)
Definition short_price_store : Database := {|
  Users := [scenario_user_row];
  Searches := [short_price_search_row];
  Interactions := [{| i_user_id := 1; i_feedback := PInt 1 |}]
|}.

(** ** The launcher: the carousel and the search form *)

(** The images of the carousel of [setup], one for each cuisine. *)
Definition images : list string :=
  ["https://i.imgur.com/K8Q2pUV.png"; "https://i.imgur.com/8NrQSxl.png";
   "https://i.imgur.com/hMK6cS4.png"; "https://i.imgur.com/kotTII8.png";
   "https://i.imgur.com/GHFWxTW.png"; "https://i.imgur.com/bbgSU2U.png";
   "https://i.imgur.com/qUfcoOT.png"; "https://i.imgur.com/wuEUqTv.png"].

(** One run of the carousel with the state of its two buttons: the
    index of the session and the store afterwards. *)
Definition swipe (user_id : Z) (left_clicked right_clicked : bool)
    (index : Z) (st : Store) : Z * Store :=
  let current_index := index in
  if bool_decide (current_index < Z.of_nat (length images))
  then
    if left_clicked || right_clicked
    then
      let feedback := PInt (if left_clicked then 1 else 0) in
      (index + 1, record_interaction user_id current_index feedback st)
    else (index, st)
  else (index, st).

(** Runs of the carousel, one after the other. *)
Fixpoint swipes (user_id : Z) (clicks : list (bool * bool)) (index : Z)
    (st : Store) : Z * Store :=
  match clicks with
  | [] => (index, st)
  | (left_clicked, right_clicked) :: rest =>
      let '(index', st') :=
        swipe user_id left_clicked right_clicked index st in
      swipes user_id rest index' st'
  end.

(** The "Find Restaurants" button up to the retrain: with a location and
    a user in the session the search is saved and the model retrained. *)
Definition find_restaurants_submit `{Estimator M} (location : string)
    (session_user_id : option Z) (feeling : option pyval)
    (cuisines tastes diet price_range : pyval) (now : Z) (st : Store)
    (ml : MLState M) : Store * (MLState M * list string * result unit) :=
  if bool_decide (location <> EmptyString)
  then
    let user_id := session_user_id in
    let emotion := default (PStr "neutral") feeling in
    match user_id with
    | Some user_id =>
        if bool_decide (user_id <> 0)
        then
          let st' := save_search_query user_id cuisines tastes diet
                       price_range (PStr location) emotion now st in
          (st', retrain_model (tables st') ml)
        else (st, (ml, [], Ok tt))
    | None => (st, (ml, [], Ok tt))
    end
  else (st, (ml, [], Ok tt)).

(** A small history: Ada signs up and rates the first image, then
    searches at second 100 and again at second 200. *)
Definition ada_store : Store := (get_or_create_user "ada" empty_store).2.

Definition rated_store : Store := record_interaction 1 0 (PInt 1) ada_store.

Definition first_search_store : Store :=
  save_search_query 1 (strings ["Italian"]) (PList []) (PStr "None")
    (PList [PInt 1; PInt 4]) (PStr "Bern") (PStr "sad") 100 rated_store.

Definition thai_search : SearchRow := {|
  s_user_id := 1; s_cuisines := strings ["Thai"]; s_tastes := PList [];
  s_diet := PStr "Vegan"; s_price_range := PList [PInt 2; PInt 3]
|}.

Definition second_search_store : Store :=
  save_search_query 1 (strings ["Thai"]) (PList []) (PStr "Vegan")
    (PList [PInt 2; PInt 3]) (PStr "Zurich") (PStr "happy") 200
    first_search_store.

(** ** The launcher as a whole *)

(** What the launcher keeps between two runs of its script: the store,
    and of [st.session_state] the [user_id] and the [index] of the
    carousel. *)
Record Session : Type := {
  store : Store;
  session_user_id : option Z;
  session_index : Z
}.

(** A new file and a new browser session. *)
Definition first_visit : Session :=
  {| store := empty_store; session_user_id := None; session_index := 0 |}.

Definition moods : list string := ["happy"; "neutral"; "sad"].

Definition diets : list string := ["None"; "Vegetarian"; "Vegan"].

(** The actions of the launcher that write to the store: a username is
    entered, a mood button is clicked, the carousel runs, the survey is
    saved, a search is submitted. The widgets hand over what they offer: a
    selection of the options, one of the responses, a price pair between
    1 and 4. An action other than the first needs the user the first
    one put in the session. A new browser session starts on the same
    store with an empty session state. *)
Inductive launcher_step `{JsonWriter} : Session -> Session -> Prop :=
| session_started (s : Session) :
    launcher_step s {| store := store s; session_user_id := None;
                       session_index := 0 |}
| username_entered (s : Session) (username : string)
    (user_info : gmap string pyval) (is_new_user : bool) (st' : Store)
    (user_id : Z) :
    username <> EmptyString ->
    get_or_create_user username (store s) = (user_info, is_new_user, st') ->
    user_info !! "user_id" = Some (PInt user_id) ->
    launcher_step s {| store := st'; session_user_id := Some user_id;
                       session_index := session_index s |}
| mood_chosen (s : Session) (user_id : Z) (mood : string) :
    session_user_id s = Some user_id ->
    mood ∈ moods ->
    launcher_step s {| store := save_user_setup user_id (PStr mood) (store s);
                       session_user_id := Some user_id;
                       session_index := session_index s |}
| carousel_run (s : Session) (user_id : Z) (left_clicked right_clicked : bool)
    (index' : Z) (st' : Store) :
    session_user_id s = Some user_id ->
    swipe user_id left_clicked right_clicked (session_index s) (store s)
    = (index', st') ->
    launcher_step s {| store := st'; session_user_id := Some user_id;
                       session_index := index' |}
| survey_saved (s : Session) (user_id : Z) (q1 q2 q3 : string)
    (st' : Store) :
    session_user_id s = Some user_id ->
    q1 ∈ responses -> q2 ∈ responses -> q3 ∈ responses ->
    save_user_preferences user_id (PStr q1) (PStr q2) (PStr q3) (store s)
    = Ok st' ->
    launcher_step s {| store := st'; session_user_id := Some user_id;
                       session_index := session_index s |}
| search_submitted (s : Session) (user_id : Z) (cuisines tastes : list string)
    (diet location : string) (price_min price_max : Z) (emotion : pyval)
    (now : Z) :
    session_user_id s = Some user_id ->
    user_id <> 0 ->
    location <> EmptyString ->
    (forall c, c ∈ cuisines -> c ∈ cuisine_options) ->
    (forall t, t ∈ tastes -> t ∈ all_tastes) ->
    diet ∈ diets ->
    1 <= price_min <= price_max /\ price_max <= 4 ->
    launcher_step s
      {| store := save_search_query user_id (strings cuisines)
                    (strings tastes) (PStr diet)
                    (PList [PInt price_min; PInt price_max])
                    (PStr location) emotion now (store s);
         session_user_id := Some user_id;
         session_index := session_index s |}.

(** A search row as the form writes it: lists of strings in title case
    and a price pair. *)
Definition normalised (s : SearchRow) : Prop :=
  exists cuisines tastes price_min price_max,
    s_cuisines s = strings cuisines
    /\ Forall (fun c => title c = c) cuisines
    /\ s_tastes s = strings tastes
    /\ Forall (fun t => title t = t) tastes
    /\ s_price_range s = PList [price_min; price_max].

(** What every action of the launcher keeps. *)
Definition launcher_invariant (s : Session) : Prop :=
  (forall i, i ∈ interaction_records (store s) ->
             users_of (tables (store s)) (i_user_id (ir_row i)) <> [])
  /\ (forall u, u ∈ user_records (store s) ->
                exists e, u_emotion (ur_row u) = PStr e)
  /\ (forall r, r ∈ search_records (store s) -> normalised (sr_row r))
  /\ (forall user_id, session_user_id s = Some user_id ->
                      users_of (tables (store s)) user_id <> []).

(** Ada's session after her first search. *)
Definition ada_session : Session :=
  {| store := first_search_store; session_user_id := Some 1;
     session_index := 1 |}.

(** ** Stores with the types of the schema *)

(** An integer SQLite can hold: the range of 64 bits. *)
Definition int64 (z : Z) : Prop :=
  -9223372036854775808 <= z <= 9223372036854775807.

(** Text in the ASCII range. *)
Definition is_ascii (s : string) : Prop :=
  Forall (fun c => (N_of_ascii c < 128)%N) (list_ascii_of_string s).

(** A store whose rows have the types of the schema: every interaction
    has a stored user and an integer feedback, the biases of a user are
    floats and the emotion is text, a search holds two lists of strings
    and a pair of integers. *)
Definition typed_store (db : Database) : Prop :=
  (forall i, i ∈ Interactions db ->
     (exists u, u ∈ Users db /\ u_user_id u = i_user_id i)
     /\ exists feedback, i_feedback i = PInt feedback)
  /\ (forall u, u ∈ Users db ->
        (exists bias, u_temperature_bias u = PFloat bias)
        /\ (exists bias, u_tourist_bias u = PFloat bias)
        /\ exists emotion, u_emotion u = PStr emotion)
  /\ (forall s, s ∈ Searches db ->
        exists cuisines tastes price_min price_max,
          s_cuisines s = strings cuisines
          /\ s_tastes s = strings tastes
          /\ s_price_range s = PList [PInt price_min; PInt price_max]).



(** The row of the user that comes first in the table. *)
Definition first_user_row (db : Database) (user_id : Z) (u : UserRow)
  : Prop :=
  exists before after,
    Users db = before ++ u :: after
    /\ u_user_id u = user_id
    /\ forall u', u' ∈ before -> u_user_id u' <> user_id.




(** Two users with float biases and text emotions, of whom only user 1
    has searched, twice; both have given feedback. *)
Definition typed_partial_store : Database := {|
  Users := [scenario_user_row; excited_user_row];
  Searches := [scenario_search_row;
               {| s_user_id := 1; s_cuisines := strings ["Thai"];
                  s_tastes := strings ["Spicy"]; s_diet := PStr "Vegan";
                  s_price_range := PList [PInt 2; PInt 3] |}];
  Interactions := [{| i_user_id := 3; i_feedback := PInt 0 |};
                   {| i_user_id := 1; i_feedback := PInt 1 |}]
|}.

(** * Properties *)

(** ** Sequencing and lists *)

(** Inversion of a successful bind. *)
Lemma bind_Ok {A B : Type} (r : result A) (k : A -> result B) (b : B) :
  r ≫= k = Ok b -> exists a, r = Ok a /\ k a = Ok b.
Proof. destruct r as [a |]; [by exists a | discriminate]. Qed.

Lemma bind_Ok_l {A B : Type} (a : A) (k : A -> result B) : Ok a ≫= k = k a.
Proof. reflexivity. Qed.

Ltac invert_binds :=
  repeat match goal with
    | H : _ ≫= _ = Ok _ |- _ =>
        let a := fresh "a" in
        let Ha := fresh "Ha" in
        apply bind_Ok in H as (a & Ha & H)
    | H : Ok _ = Ok _ |- _ => inversion H; clear H; subst
    end.

Lemma mapM_result_length {A B : Type} (f : A -> result B) (l : list A)
    (l' : list B) :
  mapM f l = Ok l' -> length l' = length l.
Proof.
  revert l'. induction l as [| x l IH]; intros l' Hl; cbn in Hl.
  - by inversion Hl.
  - destruct (f x) as [b |]; [| discriminate]. cbn in Hl.
    destruct (mapM f l) as [k |]; [| discriminate]. cbn in Hl.
    inversion Hl; subst. cbn. f_equal. by apply IH.
Qed.

Lemma mapM_result_total {A B : Type} (f : A -> result B) (g : A -> B)
    (l : list A) :
  (forall x, f x = Ok (g x)) -> mapM f l = Ok (g <$> l).
Proof.
  intros Hf. induction l as [| x l IH]; [reflexivity |].
  cbn. rewrite Hf. cbn. by rewrite IH.
Qed.

Ltac elem_cases :=
  repeat match goal with
    | H : _ ∈ _ :: _ |- _ => inversion H; clear H; subst
    | H : _ ∈ [] |- _ => inversion H
    end.

(** ** Title case *)

Example title_examples :
  title "italian" = "Italian"
  /\ title "MEDITERRANEAN" = "Mediterranean"
  /\ title "thai food" = "Thai Food"
  /\ title "Umami" = "Umami"
  /\ title "3rd wave" = "3Rd Wave".
Proof. repeat split. Qed.

(** The words of both vocabularies are in title case already. *)
Lemma vocabularies_in_title_case :
  Forall (fun w => title w = w) (all_cuisines ++ all_tastes).
Proof. repeat constructor. Qed.

Lemma title_fixed (l : list string) :
  Forall (fun s => title s = s) l -> title <$> l = l.
Proof.
  induction 1 as [| s l Hs _ IH]; [reflexivity |]. cbn. by rewrite Hs, IH.
Qed.

(** ** Membership flags *)

Lemma py_contains_container (w : string) (container : pyval) :
  is_container container = true ->
  py_contains w container = Ok (member w container).
Proof. by destruct container. Qed.

Lemma one_hot_container (vocabulary : list string) (container : pyval) :
  is_container container = true ->
  one_hot vocabulary container =
  Ok ((fun w => PInt (if member w container then 1 else 0)) <$> vocabulary).
Proof.
  intros Hc. unfold one_hot. apply mapM_result_total.
  intros w. by rewrite py_contains_container.
Qed.

Lemma one_hot_length (vocabulary : list string) (container : pyval)
    (flags : list pyval) :
  one_hot vocabulary container = Ok flags ->
  length flags = length vocabulary.
Proof. apply mapM_result_length. Qed.

(** The cuisine and the taste flags have the widths of the vocabularies. *)
Ltac fixed_widths :=
  match goal with
  | H1 : one_hot all_cuisines _ = Ok ?c, H2 : one_hot all_tastes _ = Ok ?t |- _ =>
      apply one_hot_length in H1; apply one_hot_length in H2;
      do 9 (destruct c as [| ? c]; try discriminate);
      do 7 (destruct t as [| ? t]; try discriminate)
  end.

Lemma member_strings (w : string) (l : list string) :
  member w (strings l) = bool_decide (w ∈ l).
Proof.
  unfold strings. cbn. induction l as [| s l IH]; [reflexivity |].
  cbn. rewrite IH. unfold str_eq.
  destruct (decide (s = w)) as [-> | Hne].
  - rewrite (bool_decide_eq_true_2 (w = w)) by done.
    rewrite (bool_decide_eq_true_2 (w ∈ w :: l)) by left. reflexivity.
  - rewrite (bool_decide_eq_false_2 (s = w)) by done. cbn.
    apply bool_decide_ext. rewrite elem_of_cons. intuition congruence.
Qed.

(** On a list of strings the training path raises nothing and flags the
    words of the vocabulary that occur in it as they are written. *)
Lemma training_flags (vocabulary l : list string) :
  one_hot vocabulary (strings l) =
  Ok ((fun w => PInt (if bool_decide (w ∈ l) then 1 else 0)) <$> vocabulary).
Proof.
  rewrite one_hot_container by reflexivity. f_equal.
  apply list_fmap_ext. intros _ w _. by rewrite member_strings.
Qed.

Lemma title_all_strings (l : list string) :
  title_all (strings l) = Ok (strings (title <$> l)).
Proof.
  unfold title_all, strings.
  assert (mapM (M := result)
            (fun c => match c with
                      | PStr s => Ok (PStr (title s))
                      | _ => Err AttributeError
                      end) (PStr <$> l) = Ok (PStr <$> (title <$> l))) as ->;
    [| reflexivity].
  induction l as [| s l IH]; [reflexivity |].
  cbn. cbn in IH. by rewrite IH.
Qed.

(** On a list of strings the prediction path raises nothing and flags the
    words of the vocabulary that are the title case of an entry. *)
Lemma prediction_flags (vocabulary l : list string) :
  title_all (strings l) ≫= one_hot vocabulary =
  Ok ((fun w => PInt (if bool_decide (w ∈ title <$> l) then 1 else 0))
        <$> vocabulary).
Proof. rewrite title_all_strings, bind_Ok_l. apply training_flags. Qed.

(** Entries outside the vocabulary set no flag, on either path. *)
Lemma unknown_entries_set_no_flag (vocabulary l : list string) :
  (forall s, s ∈ l -> title s ∉ vocabulary) ->
  title_all (strings l) ≫= one_hot vocabulary =
  Ok ((fun _ => PInt 0) <$> vocabulary).
Proof.
  intros Hunknown. rewrite prediction_flags. f_equal.
  apply list_fmap_ext. intros _ w Hw%list_elem_of_lookup_2.
  rewrite bool_decide_eq_false_2; [reflexivity |].
  intros (s & -> & Hs)%list_elem_of_fmap. by apply (Hunknown s).
Qed.

Lemma unknown_entries_set_no_training_flag (vocabulary l : list string) :
  (forall s, s ∈ l -> s ∉ vocabulary) ->
  one_hot vocabulary (strings l) = Ok ((fun _ => PInt 0) <$> vocabulary).
Proof.
  intros Hunknown. rewrite training_flags. f_equal.
  apply list_fmap_ext. intros _ w Hw%list_elem_of_lookup_2.
  rewrite bool_decide_eq_false_2; [reflexivity |].
  intros Hin. by apply (Hunknown w).
Qed.

(** C2: the training path tests membership on the entries as they are
    stored, without putting them in title case. The entries ["thai"] and
    ["spicy"] have their title case in the vocabularies, the training path
    sets no flag for them, the prediction path sets the Thai and the Spicy
    flag; neither path raises. *)
Theorem training_membership_is_case_sensitive :
  (title "thai" ∈ all_cuisines /\ title "spicy" ∈ all_tastes)
  /\ training_search_features lowercase_search_row =
     Ok ((PInt <$> [0; 0; 0; 0; 0; 0; 0; 0])
           ++ (PInt <$> [0; 0; 0; 0; 0; 0])
           ++ (PInt <$> [0; 0; 1])
           ++ (PInt <$> [1; 4]))
  /\ prediction_search_features (recent_search_of_row lowercase_search_row) =
     Ok ((PInt <$> [0; 0; 0; 0; 0; 0; 0; 1])
           ++ (PInt <$> [0; 0; 0; 0; 0; 1])
           ++ (PInt <$> [0; 0; 1])
           ++ (PInt <$> [1; 4])).
Proof.
  split; [split; vm_compute; set_solver |].
  split; vm_compute; reflexivity.
Qed.

(** ** The scenario vector *)

(** C3: on the user state [{temperature_bias: 0.8, tourist_bias: 0.2,
    emotion: "happy"}] and the search [{cuisines: ["italian"], tastes: [],
    diet: "Vegetarian", price_range: [1, 3]}], [prepare_feature_vector]
    returns the 22 entries
    [0.8, 0.2, 2, 1,0,0,0,0,0,0,0, 0,0,0,0,0,0, 0,1,0, 1,3]. *)
Theorem scenario_feature_vector :
  prepare_feature_vector scenario_user scenario_search =
  Ok ([PFloat 0.8%float; PFloat 0.2%float; PInt 2]
        ++ (PInt <$> [1; 0; 0; 0; 0; 0; 0; 0])
        ++ (PInt <$> [0; 0; 0; 0; 0; 0])
        ++ (PInt <$> [0; 1; 0])
        ++ (PInt <$> [1; 3])).
Proof. vm_compute. reflexivity. Qed.

(** Every vector has 3 + 8 + 6 + 3 + 2 = 22 entries. *)
Lemma training_vector_width (user_row : UserRow) (search_row : SearchRow)
    (v : list pyval) :
  training_feature_vector user_row search_row = Ok v -> length v = 22%nat.
Proof.
  unfold training_feature_vector, training_user_features,
    training_search_features.
  intros Hv. invert_binds. fixed_widths. reflexivity.
Qed.

Lemma prediction_vector_width (user_info recent_search : gmap string pyval)
    (v : list pyval) :
  prepare_feature_vector user_info recent_search = Ok v -> length v = 22%nat.
Proof.
  unfold prepare_feature_vector, prediction_user_features,
    prediction_search_features.
  intros Hv. invert_binds. fixed_widths. reflexivity.
Qed.

(** ** Diet flags *)

(** The diet flags are entries 17 to 19 of a training row. *)
Lemma training_diet_entries (user_row : UserRow) (search_row : SearchRow)
    (v : list pyval) :
  training_feature_vector user_row search_row = Ok v ->
  take 3 (drop 17 v) = diet_vector (s_diet search_row).
Proof.
  unfold training_feature_vector, training_user_features,
    training_search_features.
  intros Hv. invert_binds. fixed_widths. reflexivity.
Qed.

(** The diet flags are entries 17 to 19 of a prediction vector; a search
    without a diet counts as ["None"]. *)
Lemma prediction_diet_entries (user_info recent_search : gmap string pyval)
    (v : list pyval) :
  prepare_feature_vector user_info recent_search = Ok v ->
  take 3 (drop 17 v) =
  diet_vector (default (PStr "None") (recent_search !! "diet")).
Proof.
  unfold prepare_feature_vector, prediction_user_features,
    prediction_search_features.
  intros Hv. invert_binds. fixed_widths. reflexivity.
Qed.

(** C7: for the diets ["Vegan"], ["Vegetarian"] and ["None"] exactly one
    of the three flags, in the order Vegan, Vegetarian, None, is 1; for
    every other value all three are 0. The flags are entries 17 to 19 of
    the vector on both paths. *)
Theorem diet_one_hot :
  diet_vector (PStr "Vegan") = PInt <$> [1; 0; 0]
  /\ diet_vector (PStr "Vegetarian") = PInt <$> [0; 1; 0]
  /\ diet_vector (PStr "None") = PInt <$> [0; 0; 1]
  /\ (forall diet : pyval,
        diet <> PStr "Vegan" -> diet <> PStr "Vegetarian" ->
        diet <> PStr "None" ->
        diet_vector diet = PInt <$> [0; 0; 0])
  /\ (forall user_row search_row v,
        training_feature_vector user_row search_row = Ok v ->
        take 3 (drop 17 v) = diet_vector (s_diet search_row))
  /\ (forall user_info recent_search v,
        prepare_feature_vector user_info recent_search = Ok v ->
        take 3 (drop 17 v) =
        diet_vector (default (PStr "None") (recent_search !! "diet"))).
Proof.
  split; [reflexivity |]. split; [reflexivity |]. split; [reflexivity |].
  split; [| split].
  - intros diet Hvegan Hvegetarian Hnone. unfold diet_vector, str_eq.
    destruct diet as [| | | | s | |]; try reflexivity.
    repeat case_bool_decide; subst; congruence || reflexivity.
  - apply training_diet_entries.
  - apply prediction_diet_entries.
Qed.

Lemma diet_one_hot_witness :
  diet_vector (PStr "Keto") = PInt <$> [0; 0; 0]
  /\ take 3 (drop 17 ([PFloat 0.8%float; PFloat 0.2%float; PInt 2]
                        ++ (PInt <$> [0; 0; 0; 0; 0; 0; 0; 0;
                                      0; 0; 0; 0; 0; 0; 0; 1; 0; 1; 3])))
     = diet_vector (PStr "Vegetarian")
  /\ take 3 (drop 17 ([PFloat 0.8%float; PFloat 0.2%float; PInt 2]
                        ++ (PInt <$> [1; 0; 0; 0; 0; 0; 0; 0;
                                      0; 0; 0; 0; 0; 0; 0; 1; 0; 1; 3])))
     = diet_vector (PStr "Vegetarian").
Proof.
  destruct diet_one_hot as (_ & _ & _ & Hother & Htraining & Hprediction).
  split; [| split].
  - apply Hother; discriminate.
  - apply (Htraining scenario_user_row scenario_search_row).
    vm_compute. reflexivity.
  - apply (Hprediction scenario_user scenario_search).
    vm_compute. reflexivity.
Defined.

(** ** The emotion code *)

Lemma emotion_code_range (e code : pyval) :
  dict_get emotion_map e (PInt 1) = Ok code ->
  exists z, code = PInt z /\ 0 <= z <= 2.
Proof.
  unfold dict_get, emotion_map.
  destruct e as [| | | | s | |]; intros Hcode; try discriminate;
    try (inversion Hcode; exists 1; split; [reflexivity | lia]).
  rewrite !lookup_insert, lookup_empty in Hcode.
  repeat case_decide; inversion Hcode; eexists; (split; [reflexivity | lia]).
Qed.

Lemma emotion_code_unlisted (e : pyval) :
  hashable e = true -> listed_emotion e = false ->
  dict_get emotion_map e (PInt 1) = Ok (PInt 1).
Proof.
  unfold dict_get, emotion_map, listed_emotion, str_eq.
  destruct e as [| | | | s | |]; intros Hhash Hunlisted;
    try discriminate; try reflexivity.
  apply orb_false_elim in Hunlisted as [Hrest Hsad].
  apply orb_false_elim in Hrest as [Hhappy Hneutral].
  apply bool_decide_eq_false in Hsad, Hhappy, Hneutral.
  rewrite !lookup_insert, lookup_empty.
  repeat case_decide; subst; try reflexivity; congruence.
Qed.

(** C10: an emotion that is none of ["happy"], ["neutral"], ["sad"] (any
    other string, a NULL, a missing key) is encoded as 1 on both paths and
    raises nothing, and the third entry of every vector is 0, 1 or 2. *)
Theorem emotion_defaults_to_neutral :
  (forall user_row search_row,
     hashable (u_emotion user_row) = true ->
     listed_emotion (u_emotion user_row) = false ->
     training_feature_vector user_row search_row =
       search_part ← training_search_features search_row;
       Ok ([u_temperature_bias user_row; u_tourist_bias user_row; PInt 1]
             ++ search_part))
  /\ (forall user_info recent_search : gmap string pyval,
        match user_info !! "emotion" with
        | Some e => hashable e = true /\ listed_emotion e = false
        | None => True
        end ->
        exists temperature_bias tourist_bias,
          prepare_feature_vector user_info recent_search =
            search_part ← prediction_search_features recent_search;
            Ok ([temperature_bias; tourist_bias; PInt 1] ++ search_part))
  /\ (forall user_row search_row v,
        training_feature_vector user_row search_row = Ok v ->
        exists code, v !! 2%nat = Some (PInt code) /\ 0 <= code <= 2)
  /\ (forall user_info recent_search v,
        prepare_feature_vector user_info recent_search = Ok v ->
        exists code, v !! 2%nat = Some (PInt code) /\ 0 <= code <= 2).
Proof.
  repeat split.
  - intros user_row search_row Hhash Hunlisted.
    unfold training_feature_vector, training_user_features.
    by rewrite (emotion_code_unlisted _ Hhash Hunlisted).
  - intros user_info recent_search Hemotion.
    unfold prepare_feature_vector, prediction_user_features.
    do 2 eexists.
    destruct (user_info !! "emotion") as [e |]; [| reflexivity].
    destruct Hemotion as [Hhash Hunlisted]. cbn [from_option id].
    by rewrite (emotion_code_unlisted _ Hhash Hunlisted).
  - intros user_row search_row v Hv.
    unfold training_feature_vector, training_user_features in Hv.
    invert_binds.
    match goal with
    | H : dict_get _ _ _ = Ok _ |- _ =>
        apply emotion_code_range in H as (z & -> & Hz)
    end.
    by exists z.
  - intros user_info recent_search v Hv.
    unfold prepare_feature_vector, prediction_user_features in Hv.
    invert_binds.
    match goal with
    | H : dict_get _ _ _ = Ok _ |- _ =>
        apply emotion_code_range in H as (z & -> & Hz)
    end.
    by exists z.
Qed.

Lemma emotion_defaults_to_neutral_witness :
  training_feature_vector excited_user_row scenario_search_row =
    Ok ([PFloat 0.6%float; PFloat 0.8%float; PInt 1]
          ++ (PInt <$> [0; 0; 0; 0; 0; 0; 0; 0; 0; 0; 0; 0; 0; 0;
                        0; 1; 0; 1; 3]))
  /\ (exists temperature_bias tourist_bias,
        prepare_feature_vector (delete "emotion" scenario_user)
          scenario_search =
        Ok ([temperature_bias; tourist_bias; PInt 1]
              ++ (PInt <$> [1; 0; 0; 0; 0; 0; 0; 0; 0; 0; 0; 0; 0; 0;
                            0; 1; 0; 1; 3])))
  /\ (exists code,
        ([PFloat 0.8%float; PFloat 0.2%float; PInt 2]
           ++ (PInt <$> [0; 0; 0; 0; 0; 0; 0; 0; 0; 0; 0; 0; 0; 0;
                         0; 1; 0; 1; 3])) !! 2%nat = Some (PInt code)
        /\ 0 <= code <= 2)
  /\ (exists code,
        ([PFloat 0.8%float; PFloat 0.2%float; PInt 2]
           ++ (PInt <$> [1; 0; 0; 0; 0; 0; 0; 0; 0; 0; 0; 0; 0; 0;
                         0; 1; 0; 1; 3])) !! 2%nat = Some (PInt code)
        /\ 0 <= code <= 2).
Proof.
  destruct emotion_defaults_to_neutral
    as (Htraining & Hprediction & Htraining_range & Hprediction_range).
  split; [| split; [| split]].
  - apply (Htraining excited_user_row scenario_search_row); reflexivity.
  - apply (Hprediction (delete "emotion" scenario_user) scenario_search).
    vm_compute. exact I.
  - apply (Htraining_range scenario_user_row scenario_search_row).
    vm_compute. reflexivity.
  - apply (Hprediction_range scenario_user scenario_search).
    vm_compute. reflexivity.
Defined.


(** ** The price range *)

(** A list of length two is taken as the price pair, everything else is
    replaced by 1 and 4. *)
Lemma price_pair_fallback (price_range : pyval) :
  (forall price_min price_max, price_range <> PList [price_min; price_max]) ->
  price_pair price_range = (PInt 1, PInt 4).
Proof.
  intros Hshape. destruct price_range as [| | | | | l |]; try reflexivity.
  destruct l as [| a [| b [| c l]]]; try reflexivity.
  by destruct (Hshape a b).
Qed.

(** The price pair fills entries 20 and 21 of a prediction vector. *)
Lemma prediction_price_entries (user_info recent_search : gmap string pyval)
    (v : list pyval) :
  prepare_feature_vector user_info recent_search = Ok v ->
  let price := price_pair (default (PList [PInt 1; PInt 4])
                             (recent_search !! "price_range")) in
  drop 20 v = [price.1; price.2].
Proof.
  unfold prepare_feature_vector, prediction_user_features,
    prediction_search_features.
  intros Hv. invert_binds. fixed_widths. reflexivity.
Qed.

Lemma py_getitem_two_items (price_range : pyval) :
  has_two_items price_range = true ->
  exists price_min price_max,
    py_getitem price_range 0 = Ok price_min
    /\ py_getitem price_range 1 = Ok price_max.
Proof.
  destruct price_range as [| | | | s | l |]; try discriminate.
  - destruct s as [| c1 [| c2 s]]; try discriminate. by do 2 eexists.
  - destruct l as [| a [| b l]]; try discriminate. by do 2 eexists.
Qed.

(** C8: the training path has no fallback for the price range. A price
    range with one entry raises [IndexError] there, and of one with three
    entries the first two are taken; the prediction path answers 1 and 4
    in both cases. *)
Theorem training_price_range_has_no_fallback :
  (training_feature_vector scenario_user_row short_price_search_row =
     Err IndexError
   /\ exists v,
        prepare_feature_vector (user_info_of_row scenario_user_row)
          (recent_search_of_row short_price_search_row) = Ok v
        /\ drop 20 v = PInt <$> [1; 4])
  /\ (exists v,
        training_feature_vector scenario_user_row long_price_search_row = Ok v
        /\ drop 20 v = PInt <$> [1; 2])
  /\ (exists v,
        prepare_feature_vector (user_info_of_row scenario_user_row)
          (recent_search_of_row long_price_search_row) = Ok v
        /\ drop 20 v = PInt <$> [1; 4]).
Proof.
  split; [split |]; [vm_compute; reflexivity | | split];
    eexists; (split; [vm_compute; reflexivity | reflexivity]).
Qed.

(** ** The two encoders side by side *)

(** Where the stored entries are already in title case and the price
    range is a pair, the two paths build the same vector. *)
Lemma encoders_agree_on_normalised (user_row : UserRow)
    (search_row : SearchRow) (cuisines tastes : list string)
    (price_min price_max : pyval) :
  s_cuisines search_row = strings cuisines ->
  Forall (fun c => title c = c) cuisines ->
  s_tastes search_row = strings tastes ->
  Forall (fun t => title t = t) tastes ->
  s_price_range search_row = PList [price_min; price_max] ->
  training_feature_vector user_row search_row =
  prepare_feature_vector (user_info_of_row user_row)
    (recent_search_of_row search_row).
Proof.
  intros Hc Hcs%title_fixed Ht Hts%title_fixed Hp.
  unfold training_feature_vector, prepare_feature_vector.
  assert (prediction_user_features (user_info_of_row user_row) =
          training_user_features user_row) as -> by reflexivity.
  destruct (training_user_features user_row) as [user_part |]; [| reflexivity].
  rewrite !bind_Ok_l. f_equal.
  unfold prediction_search_features, training_search_features.
  change (recent_search_of_row search_row !! "cuisines")
    with (Some (s_cuisines search_row)).
  change (recent_search_of_row search_row !! "tastes")
    with (Some (s_tastes search_row)).
  change (recent_search_of_row search_row !! "diet")
    with (Some (s_diet search_row)).
  change (recent_search_of_row search_row !! "price_range")
    with (Some (s_price_range search_row)).
  cbn [from_option id].
  rewrite Hc, Ht, Hp.
  repeat first [ rewrite title_all_strings | rewrite training_flags
               | rewrite bind_Ok_l | rewrite Hcs | rewrite Hts ].
  reflexivity.
Qed.

(** C1: the two paths do not build the same vector on the scenario of the
    specification. From the search with cuisines [["italian"]] the
    training path leaves the Italian flag at 0, the prediction path sets
    it to 1; every other entry is the same. *)
Theorem encoders_differ_on_scenario :
  training_feature_vector scenario_user_row scenario_search_row =
    Ok ([PFloat 0.8%float; PFloat 0.2%float; PInt 2]
          ++ (PInt <$> [0; 0; 0; 0; 0; 0; 0; 0])
          ++ (PInt <$> [0; 0; 0; 0; 0; 0])
          ++ (PInt <$> [0; 1; 0])
          ++ (PInt <$> [1; 3]))
  /\ prepare_feature_vector (user_info_of_row scenario_user_row)
       (recent_search_of_row scenario_search_row) =
     Ok ([PFloat 0.8%float; PFloat 0.2%float; PInt 2]
           ++ (PInt <$> [1; 0; 0; 0; 0; 0; 0; 0])
           ++ (PInt <$> [0; 0; 0; 0; 0; 0])
           ++ (PInt <$> [0; 1; 0])
           ++ (PInt <$> [1; 3]))
  /\ training_feature_vector scenario_user_row scenario_search_row <>
     prepare_feature_vector (user_info_of_row scenario_user_row)
       (recent_search_of_row scenario_search_row).
Proof.
  split; [vm_compute; reflexivity |].
  split; [vm_compute; reflexivity |].
  intros Heq. vm_compute in Heq. discriminate.
Qed.

(** ** Training-data extraction *)

Lemma training_user_features_hashable (user_row : UserRow) :
  hashable (u_emotion user_row) = true ->
  exists emotion,
    training_user_features user_row =
    Ok [u_temperature_bias user_row; u_tourist_bias user_row; emotion].
Proof.
  unfold training_user_features, dict_get.
  destruct (u_emotion user_row); try discriminate; by eexists.
Qed.

Lemma training_search_features_shaped (search_row : SearchRow) :
  is_container (s_cuisines search_row) = true ->
  is_container (s_tastes search_row) = true ->
  has_two_items (s_price_range search_row) = true ->
  exists search_part, training_search_features search_row = Ok search_part.
Proof.
  intros Hc Ht Hp. unfold training_search_features.
  rewrite (one_hot_container _ _ Hc), (one_hot_container _ _ Ht).
  destruct (py_getitem_two_items _ Hp) as (a & b & -> & ->).
  by eexists.
Qed.

Lemma training_step_contribution (db : Database) (i : InteractionRow) :
  well_formed db -> i ∈ Interactions db ->
  exists pairs,
    contribution db i pairs
    /\ forall acc,
         training_step db i acc = Ok (acc.1 ++ pairs.*1, acc.2 ++ pairs.*2).
Proof.
  intros (Husers & Hemotions & Hsearches) Hi.
  unfold training_step, contribution.
  specialize (Husers i Hi).
  destruct (users_of db (i_user_id i)) as [| user_row others] eqn:Hrows;
    [done |].
  assert (user_row ∈ Users db) as Hin.
  { assert (user_row ∈ users_of db (i_user_id i)) as Hu
      by (rewrite Hrows; left).
    by apply list_elem_of_filter in Hu as [_ Hu]. }
  destruct (training_user_features_hashable user_row (Hemotions _ Hin))
    as (emotion & Huser).
  destruct (last (searches_of db (i_user_id i))) as [search_row |] eqn:Hlast.
  - assert (search_row ∈ Searches db) as Hs.
    { apply last_Some_elem_of in Hlast.
      by apply list_elem_of_filter in Hlast as [_ Hlast]. }
    destruct (Hsearches _ Hs) as (Hc & Ht & Hp).
    destruct (training_search_features_shaped search_row Hc Ht Hp)
      as (search_part & Hsearch).
    eexists. split.
    + exists user_row. eexists. split; [reflexivity |]. split; [| reflexivity].
      unfold training_feature_vector. rewrite Huser, Hsearch. reflexivity.
    + intros acc. rewrite bind_Ok_l, Huser, bind_Ok_l, Hsearch. reflexivity.
  - exists []. split; [reflexivity |].
    intros [data labels]. rewrite bind_Ok_l, Huser, bind_Ok_l. cbn.
    by rewrite !app_nil_r.
Qed.

Lemma training_loop_contributions (db : Database)
    (rows : list InteractionRow) :
  well_formed db -> (forall i, i ∈ rows -> i ∈ Interactions db) ->
  exists contributions,
    Forall2 (contribution db) rows contributions
    /\ forall acc,
         training_loop db rows acc =
         Ok (acc.1 ++ (concat contributions).*1,
             acc.2 ++ (concat contributions).*2).
Proof.
  intros Hdb. induction rows as [| i rows IH]; intros Hrows.
  - exists []. split; [constructor |].
    intros [data labels]. cbn. by rewrite !app_nil_r.
  - destruct (training_step_contribution db i Hdb) as (pairs & Hpairs & Hstep).
    { apply Hrows. left. }
    destruct IH as (contributions & Hall & Hloop).
    { intros j Hj. apply Hrows. by right. }
    exists (pairs :: contributions). split; [by constructor |].
    intros acc. cbn [training_loop]. rewrite Hstep. cbn.
    rewrite Hloop. cbn. by rewrite !fmap_app, !app_assoc.
Qed.

Lemma filter_none {A : Type} (P : A -> Prop) `{forall a, Decision (P a)}
    (l : list A) :
  (forall y, y ∈ l -> ~ P y) -> filter P l = [].
Proof.
  induction l as [| a l IH]; intros Hl; [reflexivity |].
  rewrite filter_cons, decide_False by (apply Hl; left).
  apply IH. intros y Hy. apply Hl. by right.
Qed.



Lemma typed_store_well_formed (db : Database) :
  typed_store db -> well_formed db.
Proof.
  intros (Hinteractions & Husers & Hsearches). split; [| split].
  - intros i Hi. destruct (Hinteractions i Hi) as [(u & Hu & Hid) _].
    intros Hnone. unfold users_of in Hnone.
    by apply (filter_nil_not_elem_of _ _ u Hnone Hid).
  - intros u Hu. by destruct (Husers u Hu) as (_ & _ & e & ->).
  - intros s Hs.
    by destruct (Hsearches s Hs) as (cs & ts & a & b & -> & -> & ->).
Qed.


Lemma partial_store_well_formed : well_formed partial_store.
Proof.
  unfold well_formed. split; [| split]; intros x Hx; cbn in Hx; elem_cases;
    repeat split; vm_compute; discriminate.
Qed.

Lemma partial_store_extraction :
  prepare_training_data partial_store =
  Ok ([[PFloat 0.8%float; PFloat 0.2%float; PInt 2]
         ++ (PInt <$> [0; 0; 0; 0; 0; 0; 0; 0; 0; 0; 0; 0; 0; 0;
                       0; 1; 0; 1; 3])],
      [PInt 1]).
Proof. vm_compute. reflexivity. Qed.

(** ** Retraining *)

(** C4: when the extracted dataset is empty, [retrain_model] prints that
    the data is insufficient and returns at once: the loaded model and the
    model file are what they were, no classifier is fitted and nothing is
    saved. A store without interactions is one such case. *)
Theorem retrain_on_empty_dataset `{Estimator M} (db : Database)
    (st : MLState M) (X : list (list pyval)) (y : list pyval) :
  prepare_training_data db = Ok (X, y) ->
  X = [] \/ y = [] ->
  retrain_model db st = (st, [retraining; insufficient_data], Ok tt).
Proof.
  intros Hdata Hempty. unfold retrain_model. rewrite Hdata.
  destruct Hempty as [-> | ->]; [reflexivity |].
  cbn. by rewrite orb_true_r.
Qed.

Lemma retrain_on_empty_dataset_witness :
  retrain_model early_store (module_import (Some (Some (PInt 0)))) =
  (module_import (Some (Some (PInt 0))), [retraining; insufficient_data], Ok tt).
Proof.
  apply (retrain_on_empty_dataset (M := option pyval) early_store
           (module_import (Some (Some (PInt 0)))) [] []).
  - vm_compute. reflexivity.
  - left. reflexivity.
Defined.

Lemma retrain_without_interactions `{Estimator M} (db : Database)
    (st : MLState M) :
  Interactions db = [] ->
  retrain_model db st = (st, [retraining; insufficient_data], Ok tt).
Proof.
  intros Hnone. unfold retrain_model, prepare_training_data.
  by rewrite Hnone.
Qed.

(** The retrain scenario: one like by a user with one search gives a
    training set of one row, and the classifier is fitted and saved. *)
Lemma retrain_scenario_one_row :
  (exists v, prepare_training_data scenario_store = Ok ([v], [PInt 1]))
  /\ retrain_model (M := option pyval) scenario_store (module_import None) =
     (module_import (Some (Some (PInt 1))),
      [retraining; model_saved; retrained], Ok tt).
Proof. split; [eexists |]; vm_compute; reflexivity. Qed.

(** ** Prediction without a model *)

Lemma surprise_me_never_selects
    (fetched_user_info fetched_recent_search : result (gmap string pyval)) :
  exists e, surprise_me_keywords fetched_user_info fetched_recent_search =
            Err (RuntimeError "An error occurred during recommendation: " e).
Proof.
  unfold surprise_me_keywords.
  destruct fetched_user_info as [ui | e1]; [| by eexists].
  destruct fetched_recent_search as [rs | e2]; [| by eexists].
  cbn. destruct (_ || _); [by eexists |].
  destruct (prepare_feature_vector ui rs); by eexists.
Qed.

(** C5: while no model is loaded ([rf_model] is [None]),
    [predict_meal_recommendations] returns no prediction: it raises, the
    cause being the "Model not loaded" error. The launcher's own
    prediction step raises as well. *)
Theorem predict_without_model `{Estimator M} (st : MLState M)
    (feature_vector : list pyval) :
  rf_model st = None ->
  predict_meal_recommendations st feature_vector =
    Err (RuntimeError "Error during prediction: "
           (ValueError model_not_loaded))
  /\ forall fetched_user_info fetched_recent_search,
       exists e,
         surprise_me_keywords fetched_user_info fetched_recent_search =
         Err (RuntimeError "An error occurred during recommendation: " e).
Proof.
  intros Hnone. split.
  - unfold predict_meal_recommendations. by rewrite Hnone.
  - apply surprise_me_never_selects.
Qed.

Lemma predict_without_model_witness :
  predict_meal_recommendations (M := option pyval) (module_import None)
    [PInt 0] =
  Err (RuntimeError "Error during prediction: " (ValueError model_not_loaded)).
Proof.
  apply (predict_without_model (M := option pyval) (module_import None) [PInt 0]).
  reflexivity.
Defined.

(** ** Keyword selection *)



(** * The rest of the pipeline *)

(** ** The preference survey *)

Lemma temperature_mapping_range (q : pyval) (score : Z) :
  dict_get_as temperature_mapping q 3 = Ok score -> 1 <= score <= 5.
Proof.
  unfold dict_get_as, temperature_mapping.
  destruct q as [| | | | s | |]; intros Hq; try discriminate;
    try (inversion Hq; lia).
  rewrite !lookup_insert, lookup_empty in Hq.
  repeat case_decide; inversion Hq; lia.
Qed.

Lemma dict_get_as_hashable {V : Type} (d : gmap string V) (q : pyval)
    (dflt : V) :
  hashable q = true -> exists v, dict_get_as d q dflt = Ok v.
Proof. destruct q; try discriminate; by eexists. Qed.

(** Whatever is answered, the temperature bias is a float between 0.2 and
    1: the docstring's interval from 0 to 1 is never left, and its lower
    fifth is never reached. *)
Theorem temperature_bias_range (q1 q2 : pyval) :
  hashable q1 = true -> hashable q2 = true ->
  exists bias,
    calculate_temperature_bias q1 q2 = Ok bias
    /\ float_between 0.2 1 bias = true.
Proof.
  intros H1 H2. unfold calculate_temperature_bias.
  destruct (dict_get_as_hashable temperature_mapping q1 3 H1) as (a & Ha).
  destruct (dict_get_as_hashable temperature_mapping q2 3 H2) as (b & Hb).
  rewrite Ha, Hb. eexists. split; [reflexivity |].
  apply temperature_mapping_range in Ha, Hb.
  assert (a = 1 \/ a = 2 \/ a = 3 \/ a = 4 \/ a = 5) as Ha' by lia.
  assert (b = 1 \/ b = 2 \/ b = 3 \/ b = 4 \/ b = 5) as Hb' by lia.
  destruct Ha' as [-> | [-> | [-> | [-> | ->]]]];
    destruct Hb' as [-> | [-> | [-> | [-> | ->]]]];
    vm_compute; reflexivity.
Qed.

Lemma temperature_bias_range_witness :
  exists bias,
    calculate_temperature_bias (PStr "Strongly Disagree") (PStr "no idea")
    = Ok bias
    /\ float_between 0.2 1 bias = true.
Proof.
  apply (temperature_bias_range (PStr "Strongly Disagree") (PStr "no idea"));
    reflexivity.
Defined.

(** Whatever is answered, the tourist bias is a float between 0 and 1. *)
Theorem tourist_bias_range (q3 : pyval) :
  hashable q3 = true ->
  exists bias,
    calculate_tourist_bias q3 = Ok bias /\ float_between 0 1 bias = true.
Proof.
  intros H3. unfold calculate_tourist_bias, dict_get_as, tourist_mapping.
  destruct q3 as [| | | | s | |]; try discriminate;
    try (eexists; split; [reflexivity | vm_compute; reflexivity]).
  rewrite !lookup_insert, lookup_empty.
  repeat case_decide;
    (eexists; split; [reflexivity | vm_compute; reflexivity]).
Qed.

Lemma tourist_bias_range_witness :
  exists bias,
    calculate_tourist_bias (PStr "Disagree") = Ok bias
    /\ float_between 0 1 bias = true.
Proof. apply (tourist_bias_range (PStr "Disagree")). reflexivity. Defined.

Lemma unlisted_response {V : Type} (d : gmap string V) (q : pyval)
    (dflt : V) :
  hashable q = true ->
  (forall s, q = PStr s -> d !! s = None) ->
  dict_get_as d q dflt = Ok dflt.
Proof.
  intros Hq Hs. destruct q as [| | | | s | |]; try discriminate;
    try reflexivity.
  cbn. by rewrite (Hs s eq_refl).
Qed.

Lemma lookup_outside_responses {V : Type} (v5 v4 v3 v2 v1 : V) (s : string) :
  s ∉ responses ->
  (<["Strongly Agree" := v5]>
     (<["Agree" := v4]>
        (<["Indifferent" := v3]>
           (<["Disagree" := v2]>
              (<["Strongly Disagree" := v1]> (∅ : gmap string V)))))) !! s
  = None.
Proof.
  intros Hs. rewrite !lookup_insert, lookup_empty.
  repeat case_decide; subst; try reflexivity;
    exfalso; apply Hs; unfold responses; repeat constructor.
Qed.

(** An answer that is none of the five of the survey (another string, or
    no string at all) counts as ["Indifferent"] in both biases. *)
Theorem unlisted_answer_counts_as_indifferent (q : pyval) :
  hashable q = true ->
  (forall s, q = PStr s -> s ∉ responses) ->
  (forall q2, calculate_temperature_bias q q2 =
              calculate_temperature_bias (PStr "Indifferent") q2)
  /\ (forall q1, calculate_temperature_bias q1 q =
                 calculate_temperature_bias q1 (PStr "Indifferent"))
  /\ calculate_tourist_bias q = Ok (PFloat 0.5%float)
  /\ calculate_tourist_bias (PStr "Indifferent") = Ok (PFloat 0.5%float).
Proof.
  intros Hq Hs.
  assert (dict_get_as temperature_mapping q 3 = Ok 3) as Htemp.
  { apply unlisted_response; [done |]. intros s Heq.
    apply lookup_outside_responses. by apply Hs. }
  assert (dict_get_as tourist_mapping q 0.5%float = Ok 0.5%float) as Htour.
  { apply unlisted_response; [done |]. intros s Heq.
    apply lookup_outside_responses. by apply Hs. }
  unfold calculate_temperature_bias, calculate_tourist_bias.
  rewrite Htemp, Htour. repeat split.
Qed.

Lemma unlisted_answer_counts_as_indifferent_witness :
  calculate_temperature_bias PNone (PStr "Agree") =
  calculate_temperature_bias (PStr "Indifferent") (PStr "Agree")
  /\ calculate_tourist_bias (PStr "agree") = Ok (PFloat 0.5%float).
Proof.
  assert (forall s, PStr "agree" = PStr s -> s ∉ responses) as Hagree.
  { intros s Heq Hin. inversion Heq; subst. unfold responses in Hin.
    elem_cases. }
  split.
  - apply (unlisted_answer_counts_as_indifferent PNone); [reflexivity |].
    intros s Heq. discriminate.
  - apply (unlisted_answer_counts_as_indifferent (PStr "agree"));
      [reflexivity | exact Hagree].
Defined.

(** ** Users *)

Lemma user_id_below_next (st : Store) (u : UserRecord) :
  u ∈ user_records st -> u_user_id (ur_row u) < next_user_id st.
Proof.
  unfold next_user_id. induction (user_records st) as [| v l IH];
    intros Hu; [inversion Hu |].
  cbn. apply elem_of_cons in Hu as [-> | Hu]; [lia |].
  specialize (IH Hu). lia.
Qed.

(** Asking for the same username again returns the same user, who is not
    new any more, and writes nothing. *)
Theorem get_or_create_user_again (username : string) (st : Store) :
  let '(user_info, _, st') := get_or_create_user username st in
  get_or_create_user username st' = (user_info, false, st').
Proof.
  unfold get_or_create_user.
  destruct (filter _ (user_records st)) as [| row rows] eqn:Hfound.
  - cbn [user_records]. rewrite filter_app, Hfound. cbn.
    rewrite decide_True by reflexivity. reflexivity.
  - by rewrite Hfound.
Qed.

(** The writers keep the user ids and the usernames unique: a created
    user gets an id and a name no row has, and no other writer touches
    either column. *)
Theorem writers_keep_users_unique `{JsonWriter} (st : Store) :
  unique_users st ->
  (forall username, unique_users (get_or_create_user username st).2)
  /\ (forall user_id emotion,
        unique_users (save_user_setup user_id emotion st))
  /\ (forall user_id q1 q2 q3 st',
        save_user_preferences user_id q1 q2 q3 st = Ok st' ->
        unique_users st')
  /\ (forall user_id cuisines tastes diet price_range location emotion now,
        unique_users (save_search_query user_id cuisines tastes diet
                        price_range location emotion now st))
  /\ (forall user_id meal_id_index feedback,
        unique_users (record_interaction user_id meal_id_index feedback st)).
Proof.
  intros [Hids Hnames].
  assert (forall user_id set,
            (forall u, u_user_id (ur_row (set u)) = u_user_id (ur_row u)) ->
            (forall u, ur_username (set u) = ur_username u) ->
            unique_users (update_user user_id set st)) as Hupdate.
  { intros user_id set Hid Hname. unfold unique_users, update_user.
    cbn [user_records]. rewrite <- !list_fmap_compose.
    split.
    - erewrite list_fmap_ext; [exact Hids |].
      intros _ u _. cbn. by case_decide.
    - erewrite list_fmap_ext; [exact Hnames |].
      intros _ u _. cbn. by case_decide. }
  split; [| split; [| split; [| split]]].
  - intros username. unfold get_or_create_user.
    destruct (filter _ (user_records st)) as [| row rows] eqn:Hfound;
      [| done].
    unfold unique_users. cbn [snd user_records]. rewrite !fmap_app.
    split; apply NoDup_app; (split; [done |]);
      (split; [| apply NoDup_singleton]); cbn.
    + intros x (u & -> & Hu)%list_elem_of_fmap Hx%list_elem_of_singleton.
      apply user_id_below_next in Hu. cbn in *. lia.
    + intros x (u & -> & Hu)%list_elem_of_fmap Hx%list_elem_of_singleton.
      assert (u ∈ filter (fun u => ur_username u = username)
                (user_records st)) as Hin
        by (by apply list_elem_of_filter).
      rewrite Hfound in Hin. inversion Hin.
  - intros user_id emotion. by apply Hupdate.
  - intros user_id q1 q2 q3 st' Hsave. unfold save_user_preferences in Hsave.
    invert_binds. by apply Hupdate.
  - done.
  - done.
Qed.

Lemma filter_fmap {A B : Type} (f : A -> B) (P : B -> Prop)
    `{forall b, Decision (P b)} (l : list A) :
  filter P (f <$> l) = f <$> filter (fun a => P (f a)) l.
Proof.
  induction l as [| a l IH]; [reflexivity |].
  rewrite fmap_cons, !filter_cons, IH. by case_decide.
Qed.

Lemma users_of_tables (st : Store) (user_id : Z) :
  users_of (tables st) user_id =
  ur_row <$> filter (fun u => u_user_id (ur_row u) = user_id)
               (user_records st).
Proof. unfold users_of, tables. cbn. apply filter_fmap. Qed.

Lemma searches_of_tables (st : Store) (user_id : Z) :
  searches_of (tables st) user_id = sr_row <$> search_records_of st user_id.
Proof.
  unfold searches_of, search_records_of, tables. cbn. apply filter_fmap.
Qed.

Lemma filter_unique {A B : Type} `{EqDecision B} (f : A -> B) (l : list A)
    (a : A) :
  NoDup (f <$> l) -> a ∈ l -> filter (fun x => f x = f a) l = [a].
Proof.
  induction l as [| x l IH]; intros Hnodup Ha; [inversion Ha |].
  cbn in Hnodup. apply NoDup_cons in Hnodup as [Hx Hnodup].
  rewrite filter_cons. apply elem_of_cons in Ha as [<- | Ha].
  - rewrite decide_True by reflexivity. f_equal.
    destruct (filter (fun x => f x = f a) l) as [| y k] eqn:Hfilter;
      [reflexivity |].
    assert (y ∈ filter (fun x => f x = f a) l) as Hy
      by (rewrite Hfilter; left).
    apply list_elem_of_filter in Hy as [Hfy Hy].
    destruct Hx. rewrite <- Hfy. by apply list_elem_of_fmap_2.
  - rewrite decide_False; [by apply IH |].
    intros Heq. destruct Hx. rewrite Heq. by apply list_elem_of_fmap_2.
Qed.

(** The user [get_or_create_user] returns is the user [get_user_data]
    finds under the returned id: same biases, same emotion. It carries
    the username asked for. *)
Theorem get_user_data_after_get_or_create (username : string) (st : Store) :
  unique_users st ->
  exists u,
    (get_or_create_user username st).1.1 = user_info_of_record u
    /\ ur_username u = username
    /\ get_user_data (u_user_id (ur_row u))
         (tables (get_or_create_user username st).2)
       = Ok (user_info_of_row (ur_row u)).
Proof.
  intros [Hids _]. unfold get_or_create_user, get_user_data.
  destruct (filter _ (user_records st)) as [| row rows] eqn:Hfound.
  - exists (new_user (next_user_id st) username).
    split; [reflexivity |]. split; [reflexivity |].
    rewrite users_of_tables. cbn [snd user_records].
    change (u_user_id (ur_row (new_user (next_user_id st) username)))
      with (next_user_id st).
    rewrite filter_app.
    assert (filter (fun u => u_user_id (ur_row u) = next_user_id st)
              (user_records st) = []) as ->.
    { destruct (filter (fun u => u_user_id (ur_row u) = next_user_id st)
                  (user_records st)) as [| v vs] eqn:Hold;
        [reflexivity |].
      assert (v ∈ filter (fun u => u_user_id (ur_row u) = next_user_id st)
                (user_records st)) as Hv by (rewrite Hold; left).
      apply list_elem_of_filter in Hv as [Hid Hv].
      apply user_id_below_next in Hv. lia. }
    cbn. rewrite decide_True by reflexivity. reflexivity.
  - assert (row ∈ filter (fun u => ur_username u = username)
              (user_records st)) as Hrow by (rewrite Hfound; left).
    apply list_elem_of_filter in Hrow as [Hname Hrow].
    exists row. split; [reflexivity |]. split; [exact Hname |].
    rewrite users_of_tables. cbn [snd].
    rewrite (filter_unique (u_user_id ∘ ur_row) _ row Hids Hrow).
    reflexivity.
Qed.

Lemma users_of_update_user (user_id other : Z)
    (set : UserRecord -> UserRecord) (st : Store) :
  (forall u, u_user_id (ur_row (set u)) = u_user_id (ur_row u)) ->
  users_of (tables (update_user user_id set st)) other =
  (fun u => ur_row (if decide (other = user_id) then set u else u))
    <$> filter (fun u => u_user_id (ur_row u) = other) (user_records st).
Proof.
  intros Hid. rewrite users_of_tables. unfold update_user.
  cbn [user_records]. rewrite filter_fmap, <- list_fmap_compose.
  rewrite (list_filter_iff _ (fun u => u_user_id (ur_row u) = other)).
  - apply list_fmap_ext. intros _ u Hu%list_elem_of_lookup_2.
    apply list_elem_of_filter in Hu as [Hu _]. cbn.
    destruct (decide (other = user_id)) as [-> | Hne].
    + by rewrite decide_True.
    + rewrite decide_False; [reflexivity | congruence].
  - intros u. case_decide; [by rewrite Hid | done].
Qed.

Lemma update_user_absent (user_id : Z) (set : UserRecord -> UserRecord)
    (st : Store) :
  users_of (tables st) user_id = [] -> update_user user_id set st = st.
Proof.
  rewrite users_of_tables. intros Habsent%fmap_nil_inv.
  unfold update_user. destruct st as [users searches interactions].
  cbn in *. f_equal.
  rewrite <- (list_fmap_id users) at 2.
  apply list_fmap_ext. intros _ u Hu%list_elem_of_lookup_2.
  rewrite decide_False; [reflexivity |].
  intros Hid.
  by apply (filter_nil_not_elem_of _ _ u Habsent Hid).
Qed.

(** [save_user_setup] with a text for the emotion and an id SQLite can
    bind (a 64-bit integer), then [get_user_data]: the user's emotion is
    the text saved and the biases are as before; the other users read as
    before; for an id no user has nothing is written and nothing is
    raised. *)
Theorem save_user_setup_round_trip (user_id : Z) (emotion : string)
    (st : Store) :
  int64 user_id ->
  (forall user_info,
     get_user_data user_id (tables st) = Ok user_info ->
     get_user_data user_id
       (tables (save_user_setup user_id (PStr emotion) st)) =
     Ok (<["emotion" := PStr emotion]> user_info))
  /\ (forall other, int64 other -> other <> user_id ->
        get_user_data other
          (tables (save_user_setup user_id (PStr emotion) st)) =
        get_user_data other (tables st))
  /\ ((forall u, u ∈ user_records st -> u_user_id (ur_row u) <> user_id) ->
      save_user_setup user_id (PStr emotion) st = st).
Proof.
  intros _. unfold save_user_setup, get_user_data. split; [| split].
  - intros user_info. rewrite users_of_update_user by reflexivity.
    rewrite users_of_tables.
    destruct (filter _ (user_records st)) as [| u us]; [discriminate |].
    rewrite !fmap_cons, decide_True by reflexivity. intros Hinfo.
    inversion Hinfo; subst. reflexivity.
  - intros other _ Hother. rewrite users_of_update_user by reflexivity.
    destruct (decide (other = user_id)) as [? | _]; [done |].
    by rewrite users_of_tables.
  - intros Hnone. apply update_user_absent.
    rewrite users_of_tables.
    by rewrite (filter_none _ (user_records st)) by exact Hnone.
Qed.

Lemma save_user_setup_round_trip_witness :
  get_user_data 1 (tables (save_user_setup 1 (PStr "sad") ada_store)) =
  Ok (<["emotion" := PStr "sad"]>
        (user_info_of_row (ur_row (new_user 1 "ada")))).
Proof.
  apply (proj1 (save_user_setup_round_trip 1 "sad" ada_store
                  ltac:(unfold int64; lia))).
  reflexivity.
Defined.

Lemma writers_keep_users_unique_witness :
  unique_users (get_or_create_user "grace"
                  ada_store).2
  /\ unique_users (record_interaction 1 0 (PInt 1)
                     ada_store).
Proof.
  assert (unique_users ada_store) as Hada.
  { apply (writers_keep_users_unique (H := plain_json_writer) empty_store).
    split; constructor. }
  split.
  - apply (writers_keep_users_unique (H := plain_json_writer)
             ada_store Hada).
  - apply (writers_keep_users_unique (H := plain_json_writer)
             ada_store Hada).
Defined.

Lemma get_user_data_after_get_or_create_witness :
  exists u,
    (get_or_create_user "ada" empty_store).1.1 = user_info_of_record u
    /\ ur_username u = "ada"
    /\ get_user_data (u_user_id (ur_row u))
         (tables ada_store)
       = Ok (user_info_of_row (ur_row u)).
Proof.
  apply (get_user_data_after_get_or_create "ada" empty_store).
  split; constructor.
Defined.

(** [save_user_preferences] then [get_user_data]: the biases read back
    are the two computed from the answers, and the emotion is as before.
    When an answer cannot be looked up the call raises and writes
    nothing. *)
Theorem save_user_preferences_round_trip `{JsonWriter} (user_id : Z)
    (q1 q2 q3 : pyval) (st : Store) :
  (forall temperature_bias tourist_bias user_info,
     calculate_temperature_bias q1 q2 = Ok temperature_bias ->
     calculate_tourist_bias q3 = Ok tourist_bias ->
     get_user_data user_id (tables st) = Ok user_info ->
     exists st',
       save_user_preferences user_id q1 q2 q3 st = Ok st'
       /\ get_user_data user_id (tables st') =
          Ok (<["temperature_bias" := temperature_bias]>
                (<["tourist_bias" := tourist_bias]> user_info)))
  /\ (hashable q1 && hashable q2 && hashable q3 = false ->
      save_user_preferences user_id q1 q2 q3 st = Err TypeError).
Proof.
  split.
  - intros temperature_bias tourist_bias user_info Htemp Htour.
    unfold save_user_preferences, get_user_data. rewrite Htemp, Htour.
    rewrite !bind_Ok_l. intros Hinfo. eexists. split; [reflexivity |].
    rewrite users_of_update_user by reflexivity.
    rewrite users_of_tables in Hinfo.
    destruct (filter _ (user_records st)) as [| u us]; [discriminate |].
    rewrite !fmap_cons, decide_True by reflexivity.
    inversion Hinfo; subst. reflexivity.
  - unfold save_user_preferences, calculate_temperature_bias,
      calculate_tourist_bias.
    destruct q1, q2, q3; try discriminate; reflexivity.
Qed.

Lemma save_user_preferences_round_trip_witness :
  (exists st',
     save_user_preferences 1 (PStr "Agree") (PStr "Disagree")
       (PStr "Strongly Agree") ada_store
     = Ok st'
     /\ get_user_data 1 (tables st') =
        Ok (<["temperature_bias" := PFloat 0.6%float]>
              (<["tourist_bias" := PFloat 1%float]>
                 (user_info_of_row (ur_row (new_user 1 "ada"))))))
  /\ save_user_preferences 1 (PStr "Agree") (PList []) (PStr "Agree")
       empty_store = Err TypeError.
Proof.
  split.
  - apply (proj1 (save_user_preferences_round_trip (H := plain_json_writer)
                    1 (PStr "Agree") (PStr "Disagree")
                    (PStr "Strongly Agree")
                    ada_store));
      reflexivity.
  - apply (proj2 (save_user_preferences_round_trip (H := plain_json_writer)
                    1 (PStr "Agree") (PList []) (PStr "Agree") empty_store)).
    reflexivity.
Defined.

(** [get_user_data] for an id that SQLite can bind (a 64-bit integer)
    raises [ValueError] when no user row has the id. When a row has it
    and the first such row holds two numbers and a text (no NULL), the
    dict returned has these three values under its three keys, so the
    defaults of [prepare_feature_vector] stay unused and the first three
    entries of the prediction vector are those the training path builds
    from the same row. *)
Theorem get_user_data_feeds_both_paths (user_id : Z) (db : Database) :
  int64 user_id ->
  ((forall u, u ∈ Users db -> u_user_id u <> user_id) ->
   get_user_data user_id db =
   Err (ValueError ("No user data found for user_id " +:+ pretty user_id)))
  /\ (forall user_row temperature tourist emotion,
        first_user_row db user_id user_row ->
        u_temperature_bias user_row = PFloat temperature ->
        is_nan temperature = false ->
        u_tourist_bias user_row = PFloat tourist ->
        is_nan tourist = false ->
        u_emotion user_row = PStr emotion ->
        exists user_info,
          get_user_data user_id db = Ok user_info
          /\ user_info !! "temperature_bias" = Some (PFloat temperature)
          /\ user_info !! "tourist_bias" = Some (PFloat tourist)
          /\ user_info !! "emotion" = Some (PStr emotion)
          /\ prediction_user_features user_info =
             training_user_features user_row).
Proof.
  intros _. unfold get_user_data, users_of. split.
  - intros Hnone.
    destruct (filter _ (Users db)) as [| u us] eqn:Hrows; [reflexivity |].
    assert (u ∈ filter (fun u => u_user_id u = user_id) (Users db)) as Hu
      by (rewrite Hrows; left).
    apply list_elem_of_filter in Hu as [Hid Hu]. by destruct (Hnone u Hu).
  - intros user_row temperature tourist emotion
      (before & after & Husers & Hid & Hbefore) Htemperature _ Htourist _
      Hemotion.
    rewrite Husers, filter_app, filter_cons, decide_True by exact Hid.
    rewrite (filter_none _ before) by exact Hbefore.
    cbn [app]. exists (user_info_of_row user_row).
    split; [reflexivity |].
    split; [by rewrite <- Htemperature |].
    split; [by rewrite <- Htourist |].
    split; [by rewrite <- Hemotion | reflexivity].
Qed.

Lemma get_user_data_feeds_both_paths_witness :
  get_user_data 7 (tables empty_store) =
    Err (ValueError "No user data found for user_id 7")
  /\ exists user_info,
       get_user_data 1 (tables ada_store) = Ok user_info
       /\ user_info !! "temperature_bias" = Some (PFloat 0.5%float)
       /\ user_info !! "tourist_bias" = Some (PFloat 0.5%float)
       /\ user_info !! "emotion" = Some (PStr "neutral")
       /\ prediction_user_features user_info =
          training_user_features (ur_row (new_user 1 "ada")).
Proof.
  split.
  - apply (proj1 (get_user_data_feeds_both_paths 7 (tables empty_store)
                    ltac:(unfold int64; lia))).
    intros u Hu. inversion Hu.
  - apply (proj2 (get_user_data_feeds_both_paths 1 (tables ada_store)
                    ltac:(unfold int64; lia))
             (ur_row (new_user 1 "ada")) 0.5%float 0.5%float "neutral");
      try reflexivity.
    exists [], []. split; [reflexivity |]. split; [reflexivity |].
    intros u Hu. inversion Hu.
Defined.

(** ** Interactions *)

Lemma meal_id_map_lookup (meal_id_index : Z) :
  default "Unknown" (meal_id_map !! meal_id_index) =
  if bool_decide (0 <= meal_id_index)
  then default "Unknown" (all_cuisines !! Z.to_nat meal_id_index)
  else "Unknown".
Proof.
  unfold meal_id_map.
  destruct (decide (0 <= meal_id_index)) as [Hindex | Hindex].
  - rewrite bool_decide_eq_true_2 by done.
    rewrite !lookup_insert, lookup_empty.
    repeat case_decide; subst; try reflexivity.
    rewrite (lookup_ge_None_2 all_cuisines); [reflexivity |].
    cbn. lia.
  - rewrite bool_decide_eq_false_2 by done.
    rewrite !lookup_insert, lookup_empty.
    repeat case_decide; subst; try reflexivity; lia.
Qed.

(** [record_interaction] with a 64-bit user id and a 64-bit integer as
    feedback appends one row of this id and feedback. The label of the
    row is the cuisine at the index of the swiped image in the encoder's
    vocabulary, and ["Unknown"] for an index outside 0 to 7. *)
Theorem record_interaction_meal_id (user_id meal_id_index feedback : Z)
    (st : Store) :
  int64 user_id -> int64 feedback ->
  interaction_records
    (record_interaction user_id meal_id_index (PInt feedback) st)
  = interaction_records st ++
    [{| ir_row := {| i_user_id := user_id; i_feedback := PInt feedback |};
        ir_meal_id :=
          if bool_decide (0 <= meal_id_index)
          then default "Unknown" (all_cuisines !! Z.to_nat meal_id_index)
          else "Unknown" |}].
Proof.
  intros _ _. unfold record_interaction. cbn [interaction_records].
  by rewrite meal_id_map_lookup.
Qed.

Lemma record_interaction_meal_id_witness :
  interaction_records (record_interaction 1 7 (PInt 0) rated_store)
  = interaction_records rated_store ++
    [{| ir_row := {| i_user_id := 1; i_feedback := PInt 0 |};
        ir_meal_id := "Thai" |}]
  /\ interaction_records (record_interaction 1 8 (PInt 1) rated_store)
     = interaction_records rated_store ++
       [{| ir_row := {| i_user_id := 1; i_feedback := PInt 1 |};
           ir_meal_id := "Unknown" |}].
Proof.
  split.
  - apply (record_interaction_meal_id 1 7 0 rated_store);
      unfold int64; lia.
  - apply (record_interaction_meal_id 1 8 1 rated_store);
      unfold int64; lia.
Defined.

Lemma training_step_reads_users_and_searches (db db' : Database)
    (i : InteractionRow) (acc : list (list pyval) * list pyval) :
  Users db = Users db' -> Searches db = Searches db' ->
  training_step db i acc = training_step db' i acc.
Proof.
  intros Husers Hsearches.
  unfold training_step, users_of, searches_of.
  by rewrite Husers, Hsearches.
Qed.

Lemma training_loop_reads_users_and_searches (db db' : Database)
    (rows : list InteractionRow) (acc : list (list pyval) * list pyval) :
  Users db = Users db' -> Searches db = Searches db' ->
  training_loop db rows acc = training_loop db' rows acc.
Proof.
  intros Husers Hsearches. revert acc.
  induction rows as [| i rows IH]; intros acc; [reflexivity |].
  cbn [training_loop].
  rewrite (training_step_reads_users_and_searches db db' i acc Husers
             Hsearches).
  destruct (training_step db' i acc) as [acc' |]; [| reflexivity].
  rewrite !bind_Ok_l. apply IH.
Qed.

Lemma training_loop_app (db : Database) (rows rows' : list InteractionRow)
    (acc : list (list pyval) * list pyval) :
  training_loop db (rows ++ rows') acc =
  training_loop db rows acc ≫= training_loop db rows'.
Proof.
  revert acc. induction rows as [| i rows IH]; intros acc; [reflexivity |].
  cbn [training_loop app].
  destruct (training_step db i acc) as [acc' |]; [| reflexivity].
  rewrite !bind_Ok_l. apply IH.
Qed.

(** Recording an interaction (64-bit user id, 64-bit integer feedback)
    extends the training set at its end: the extraction over the new
    store is the extraction over the old one followed by the loop body
    on the new interaction. The rows and labels extracted before stay as
    they were. *)
Theorem record_interaction_extends_training_data
    (user_id meal_id_index feedback : Z) (st : Store) :
  int64 user_id -> int64 feedback ->
  prepare_training_data
    (tables (record_interaction user_id meal_id_index (PInt feedback) st)) =
  prepare_training_data (tables st)
    ≫= training_step (tables st)
          {| i_user_id := user_id; i_feedback := PInt feedback |}.
Proof.
  intros _ _. unfold prepare_training_data.
  rewrite (training_loop_reads_users_and_searches _ (tables st))
    by reflexivity.
  cbn [tables Interactions record_interaction interaction_records].
  rewrite fmap_app, training_loop_app.
  destruct (training_loop (tables st) _ ([], [])) as [acc |]; [| reflexivity].
  rewrite !bind_Ok_l. cbn [fmap list_fmap training_loop ir_row].
  by destruct (training_step _ _ acc).
Qed.

Lemma record_interaction_extends_training_data_witness :
  prepare_training_data
    (tables (record_interaction 1 7 (PInt 0) first_search_store)) =
  prepare_training_data (tables first_search_store)
    ≫= training_step (tables first_search_store)
          {| i_user_id := 1; i_feedback := PInt 0 |}.
Proof.
  apply (record_interaction_extends_training_data 1 7 0 first_search_store);
    unfold int64; lia.
Defined.

(** ** Searches *)

Lemma most_recent_chronological (st : Store) (user_id : Z)
    (r r' : SearchRecord) :
  chronological st user_id ->
  last (search_records_of st user_id) = Some r ->
  most_recent st user_id r' <-> r' = r.
Proof.
  unfold chronological, most_recent.
  intros Hsorted (l & Hl)%last_Some. rewrite Hl in *.
  apply StronglySorted_app in Hsorted as (Hbefore & _ & _).
  split.
  - intros [Hr' Hmax].
    apply elem_of_app in Hr' as [Hr' | Hr']; [| by elem_cases].
    assert (sr_timestamp r' < sr_timestamp r) as Hlt.
    { apply (Hbefore r' r Hr'). left. }
    assert (sr_timestamp r <= sr_timestamp r') as Hle.
    { apply Hmax. apply elem_of_app. right. left. }
    lia.
  - intros ->. split; [apply elem_of_app; right; left |].
    intros r' Hr'. apply elem_of_app in Hr' as [Hr' | Hr'].
    + assert (sr_timestamp r' < sr_timestamp r); [| lia].
      apply (Hbefore r' r Hr'). left.
    + elem_cases. lia.
Qed.

Lemma get_recent_search_chronological (st : Store) (user_id : Z)
    (r : SearchRecord) (res : result (gmap string pyval)) :
  chronological st user_id ->
  last (search_records_of st user_id) = Some r ->
  get_recent_search user_id st res <->
  res = Ok (recent_search_of_row (sr_row r)).
Proof.
  intros Hsorted Hlast. split.
  - intros [r' Hr' | Hnone].
    + by apply (most_recent_chronological st user_id r r' Hsorted Hlast)
        in Hr' as ->.
    + rewrite Hnone in Hlast. discriminate.
  - intros ->. constructor.
    by apply (most_recent_chronological st user_id r r Hsorted Hlast).
Qed.

(** Where the searches of a user were saved in different seconds,
    [get_recent_search] returns the user's last search and nothing else:
    the search the training path encodes for this user. *)
Theorem get_recent_search_is_training_search (user_id : Z) (st : Store)
    (r : SearchRecord) :
  chronological st user_id ->
  last (search_records_of st user_id) = Some r ->
  (forall res,
     get_recent_search user_id st res <->
     res = Ok (recent_search_of_row (sr_row r)))
  /\ last (searches_of (tables st) user_id) = Some (sr_row r).
Proof.
  intros Hsorted Hlast. split.
  - intros res. by apply get_recent_search_chronological.
  - by rewrite searches_of_tables, fmap_last, Hlast.
Qed.

Lemma get_recent_search_is_training_search_witness :
  (forall res,
     get_recent_search 1 second_search_store res <->
     res = Ok (recent_search_of_row thai_search))
  /\ last (searches_of (tables second_search_store) 1) = Some thai_search.
Proof.
  apply (get_recent_search_is_training_search 1 second_search_store
           {| sr_row := thai_search; sr_location := PStr "Zurich";
              sr_emotion := PStr "happy"; sr_timestamp := 200 |}).
  - unfold chronological. cbn. repeat constructor.
  - reflexivity.
Defined.

Lemma search_records_of_save (user_id other : Z)
    (cuisines tastes diet price_range location emotion : pyval) (now : Z)
    (st : Store) :
  search_records_of
    (save_search_query user_id cuisines tastes diet price_range location
       emotion now st) other =
  search_records_of st other ++
  if decide (user_id = other)
  then [{| sr_row := {| s_user_id := user_id; s_cuisines := cuisines;
                        s_tastes := tastes; s_diet := diet;
                        s_price_range := price_range |};
           sr_location := location; sr_emotion := emotion;
           sr_timestamp := now |}]
  else [].
Proof.
  unfold search_records_of, save_search_query. cbn [search_records].
  rewrite filter_app. f_equal.
Qed.

Lemma saved_search_is_last (user_id : Z)
    (cuisines tastes diet price_range location emotion : pyval) (now : Z)
    (st : Store) :
  (forall r, r ∈ search_records_of st user_id -> sr_timestamp r < now) ->
  let st' := save_search_query user_id cuisines tastes diet price_range
               location emotion now st in
  let saved := {| s_user_id := user_id; s_cuisines := cuisines;
                  s_tastes := tastes; s_diet := diet;
                  s_price_range := price_range |} in
  last (searches_of (tables st') user_id) = Some saved
  /\ (forall res,
        get_recent_search user_id st' res <->
        res = Ok (recent_search_of_row saved))
  /\ (forall other, other <> user_id ->
        search_records_of st' other = search_records_of st other).
Proof.
  intros Hearlier st' saved.
  assert (search_records_of st' user_id =
          search_records_of st user_id ++
          [{| sr_row := saved; sr_location := location;
              sr_emotion := emotion; sr_timestamp := now |}]) as Hrows.
  { unfold st'. rewrite search_records_of_save.
    by rewrite decide_True by reflexivity. }
  split; [| split].
  - by rewrite searches_of_tables, fmap_last, Hrows, last_snoc.
  - intros res. split.
    + intros [r [Hr Hmax] | Hnone].
      * rewrite Hrows in Hr, Hmax.
        apply elem_of_app in Hr as [Hr | Hr]; [| by elem_cases].
        specialize (Hearlier r Hr).
        assert (now <= sr_timestamp r); [| lia].
        apply (Hmax {| sr_row := saved; sr_location := location;
                       sr_emotion := emotion; sr_timestamp := now |}).
        apply elem_of_app. right. left.
      * rewrite Hrows in Hnone. by destruct (search_records_of st user_id).
    + intros ->.
      apply (recent_search_found user_id st'
               {| sr_row := saved; sr_location := location;
                  sr_emotion := emotion; sr_timestamp := now |}).
      split; rewrite Hrows.
      * apply elem_of_app. right. left.
      * intros r' Hr'. apply elem_of_app in Hr' as [Hr' | Hr'].
        -- specialize (Hearlier r' Hr'). cbn. lia.
        -- elem_cases. lia.
  - intros other Hother. unfold st'. rewrite search_records_of_save.
    rewrite decide_False by done. apply app_nil_r.
Qed.

(** A search as the form submits it (lists of texts for cuisines and
    tastes, texts for diet, location and emotion, a pair of integers for
    the price range, a 64-bit user id), saved later than the user's
    earlier ones, is the search both paths use from then on: it is the
    last search of the user, which the training path encodes, and
    [get_recent_search] returns its four values as they were passed and
    nothing else. The searches of the other users are as before. *)
Theorem saved_search_is_used_next (user_id : Z) (cuisines tastes : list string)
    (diet location emotion : string) (price_min price_max now : Z)
    (st : Store) :
  int64 user_id ->
  (forall r, r ∈ search_records_of st user_id -> sr_timestamp r < now) ->
  let st' := save_search_query user_id (strings cuisines) (strings tastes)
               (PStr diet) (PList [PInt price_min; PInt price_max])
               (PStr location) (PStr emotion) now st in
  let saved := {| s_user_id := user_id; s_cuisines := strings cuisines;
                  s_tastes := strings tastes; s_diet := PStr diet;
                  s_price_range := PList [PInt price_min; PInt price_max] |} in
  last (searches_of (tables st') user_id) = Some saved
  /\ (forall res,
        get_recent_search user_id st' res <->
        res = Ok (recent_search_of_row saved))
  /\ (forall other, other <> user_id ->
        search_records_of st' other = search_records_of st other).
Proof.
  intros _ Hearlier.
  exact (saved_search_is_last user_id (strings cuisines) (strings tastes)
           (PStr diet) (PList [PInt price_min; PInt price_max])
           (PStr location) (PStr emotion) now st Hearlier).
Qed.

Lemma saved_search_is_used_next_witness :
  last (searches_of (tables second_search_store) 1) = Some thai_search
  /\ (forall res,
        get_recent_search 1 second_search_store res <->
        res = Ok (recent_search_of_row thai_search))
  /\ (forall other, other <> 1 ->
        search_records_of second_search_store other =
        search_records_of first_search_store other).
Proof.
  apply (saved_search_is_used_next 1 ["Thai"] [] "Vegan" "Zurich" "happy"
           2 3 200 first_search_store); [unfold int64; lia |].
  intros r Hr. vm_compute in Hr.
  inversion Hr as [| ? ? ? Hnil]; subst; [reflexivity | inversion Hnil].
Defined.

(** ** The training matrix *)

Lemma training_step_shape (db : Database) (i : InteractionRow)
    (acc acc' : list (list pyval) * list pyval) :
  training_step db i acc = Ok acc' ->
  length acc.1 = length acc.2 ->
  Forall (fun v => length v = 22%nat) acc.1 ->
  length acc'.1 = length acc'.2
  /\ Forall (fun v => length v = 22%nat) acc'.1.
Proof.
  unfold training_step. intros Hstep Hlen Hwidth.
  apply bind_Ok in Hstep as (user_row & _ & Hstep).
  apply bind_Ok in Hstep as (user_part & Huser & Hstep).
  destruct (last (searches_of db (i_user_id i))) as [search_row |].
  - apply bind_Ok in Hstep as (search_part & Hsearch & Hstep).
    inversion Hstep; subst; clear Hstep. cbn [fst snd].
    rewrite !length_app, Hlen. split; [reflexivity |].
    apply Forall_app. split; [done |]. apply Forall_singleton.
    apply (training_vector_width user_row search_row).
    unfold training_feature_vector. by rewrite Huser, bind_Ok_l, Hsearch.
  - by inversion Hstep; subst.
Qed.

Lemma training_loop_shape (db : Database) (rows : list InteractionRow)
    (acc acc' : list (list pyval) * list pyval) :
  training_loop db rows acc = Ok acc' ->
  length acc.1 = length acc.2 ->
  Forall (fun v => length v = 22%nat) acc.1 ->
  length acc'.1 = length acc'.2
  /\ Forall (fun v => length v = 22%nat) acc'.1
  /\ (length acc'.1 <= length acc.1 + length rows)%nat.
Proof.
  revert acc. induction rows as [| i rows IH]; intros acc Hloop Hlen Hwidth.
  - inversion Hloop; subst. cbn. repeat split; [done | done | lia].
  - cbn [training_loop] in Hloop.
    apply bind_Ok in Hloop as (acc1 & Hstep & Hloop).
    destruct (training_step_shape db i acc acc1 Hstep Hlen Hwidth)
      as [Hlen1 Hwidth1].
    destruct (IH acc1 Hloop Hlen1 Hwidth1) as (Hlen' & Hwidth' & Hbound).
    repeat split; [done | done |].
    assert (length acc1.1 <= length acc.1 + 1)%nat; [| cbn; lia].
    unfold training_step in Hstep.
    apply bind_Ok in Hstep as (user_row & _ & Hstep).
    apply bind_Ok in Hstep as (user_part & _ & Hstep).
    destruct (last (searches_of db (i_user_id i))).
    + apply bind_Ok in Hstep as (search_part & _ & Hstep).
      inversion Hstep; subst. cbn. rewrite length_app. cbn. lia.
    + inversion Hstep; subst. lia.
Qed.

(** What the extraction returns is a matrix with a label for every row,
    22 entries in every row, and no more rows than there are
    interactions. *)
Theorem training_matrix_shape (db : Database) (X : list (list pyval))
    (y : list pyval) :
  prepare_training_data db = Ok (X, y) ->
  length X = length y
  /\ Forall (fun v => length v = 22%nat) X
  /\ (length X <= length (Interactions db))%nat.
Proof.
  intros Hdata.
  apply (training_loop_shape db (Interactions db) ([], []) (X, y)) in Hdata;
    [| reflexivity | constructor].
  exact Hdata.
Qed.

Lemma training_matrix_shape_witness :
  length [[PFloat 0.8%float; PFloat 0.2%float; PInt 2;
           PInt 0; PInt 0; PInt 0; PInt 0; PInt 0; PInt 0; PInt 0; PInt 0;
           PInt 0; PInt 0; PInt 0; PInt 0; PInt 0; PInt 0;
           PInt 0; PInt 1; PInt 0; PInt 1; PInt 3]] = length [PInt 1]
  /\ Forall (fun v => length v = 22%nat)
       [[PFloat 0.8%float; PFloat 0.2%float; PInt 2;
         PInt 0; PInt 0; PInt 0; PInt 0; PInt 0; PInt 0; PInt 0; PInt 0;
         PInt 0; PInt 0; PInt 0; PInt 0; PInt 0; PInt 0;
         PInt 0; PInt 1; PInt 0; PInt 1; PInt 3]]
  /\ (1 <= length (Interactions partial_store))%nat.
Proof.
  apply (training_matrix_shape partial_store). vm_compute. reflexivity.
Defined.

(** ** The model after a retrain *)

Lemma training_data_labels_nonempty (db : Database) (X : list (list pyval))
    (y : list pyval) :
  prepare_training_data db = Ok (X, y) -> X <> [] -> y <> [].
Proof.
  intros Hdata HX.
  apply (training_loop_shape db (Interactions db) ([], []) (X, y)) in Hdata
    as (Hlen & _); [| reflexivity | constructor].
  cbn in Hlen. destruct X, y; done.
Qed.

(** A retrain on a dataset that is not empty, with a fit that succeeds,
    loads the fitted model and saves the same model: a process that
    imports the module afterwards starts in the state the retrain left,
    and a prediction is the fitted model's. *)
Theorem retrain_loads_and_saves `{Estimator M} (db : Database)
    (st : MLState M) (X : list (list pyval)) (y : list pyval) (model : M) :
  prepare_training_data db = Ok (X, y) ->
  X <> [] ->
  fit new_estimator X y = Ok model ->
  let st' := (retrain_model db st).1.1 in
  retrain_model db st =
    ({| rf_model := Some model; model_file := Some model |},
     [retraining; model_saved; retrained], Ok tt)
  /\ module_import (model_file st') = st'
  /\ forall feature_vector,
       predict_meal_recommendations st' feature_vector =
       match predict model [feature_vector] with
       | Ok (prediction :: _) => Ok prediction
       | Ok [] => Err (RuntimeError "Error during prediction: " IndexError)
       | Err e => Err (RuntimeError "Error during prediction: " e)
       end.
Proof.
  intros Hdata HX Hfit st'.
  assert (retrain_model db st =
          ({| rf_model := Some model; model_file := Some model |},
           [retraining; model_saved; retrained], Ok tt)) as Hretrain.
  { unfold retrain_model. rewrite Hdata.
    pose proof (training_data_labels_nonempty db X y Hdata HX) as Hy.
    rewrite !bool_decide_eq_false_2; [| by destruct y | by destruct X].
    cbn [orb]. by rewrite Hfit. }
  unfold st'. rewrite Hretrain. split; [reflexivity |].
  split; [reflexivity |].
  intros feature_vector. unfold predict_meal_recommendations. cbn.
  destruct (predict model [feature_vector]) as [[| p ps] | e]; reflexivity.
Qed.

Lemma retrain_loads_and_saves_witness :
  retrain_model (M := option pyval) scenario_store (module_import None) =
  ({| rf_model := Some (Some (PInt 1)); model_file := Some (Some (PInt 1)) |},
   [retraining; model_saved; retrained], Ok tt).
Proof.
  apply (retrain_loads_and_saves (M := option pyval) scenario_store
           (module_import None)
           [[PFloat 0.8%float; PFloat 0.2%float; PInt 2;
             PInt 0; PInt 0; PInt 0; PInt 0; PInt 0; PInt 0; PInt 0; PInt 0;
             PInt 0; PInt 0; PInt 0; PInt 0; PInt 0; PInt 0;
             PInt 0; PInt 1; PInt 0; PInt 1; PInt 3]] [PInt 1]
           (Some (PInt 1))).
  - vm_compute. reflexivity.
  - discriminate.
  - reflexivity.
Defined.

(** A retrain that fails leaves the model file as it was. When the
    extraction raises, the loaded model is as it was too; when the fit
    raises, the loaded model has already been replaced by the new,
    unfitted classifier. *)
Theorem failed_retrain `{Estimator M} (db : Database) (st : MLState M) :
  (forall e,
     prepare_training_data db = Err e ->
     retrain_model db st = (st, [retraining], Err e))
  /\ (forall X y e,
        prepare_training_data db = Ok (X, y) ->
        X <> [] ->
        fit new_estimator X y = Err e ->
        retrain_model db st =
        ({| rf_model := Some new_estimator; model_file := model_file st |},
         [retraining], Err e)).
Proof.
  split.
  - intros e Hdata. unfold retrain_model. by rewrite Hdata.
  - intros X y e Hdata HX Hfit. unfold retrain_model. rewrite Hdata.
    pose proof (training_data_labels_nonempty db X y Hdata HX) as Hy.
    rewrite !bool_decide_eq_false_2; [| by destruct y | by destruct X].
    cbn [orb]. by rewrite Hfit.
Qed.

(** Whatever goes wrong in [predict_meal_recommendations] reaches the
    caller as a [RuntimeError], and a prediction it returns is the first
    one of the loaded model for the one vector. *)
Theorem prediction_outcomes `{Estimator M} (st : MLState M)
    (feature_vector : list pyval) :
  match predict_meal_recommendations st feature_vector with
  | Ok prediction =>
      exists model rest,
        rf_model st = Some model
        /\ predict model [feature_vector] = Ok (prediction :: rest)
  | Err e => exists cause, e = RuntimeError "Error during prediction: " cause
  end.
Proof.
  unfold predict_meal_recommendations.
  destruct (rf_model st) as [model |]; [| by eexists].
  destruct (predict model [feature_vector]) as [[| p ps] | e] eqn:Hpredict;
    cbn; [by eexists | | by eexists].
  by exists model, ps.
Qed.

Lemma failed_retrain_witness :
  retrain_model (M := option pyval) short_price_store
    (module_import (Some (Some (PInt 0)))) =
    (module_import (Some (Some (PInt 0))), [retraining], Err IndexError)
  /\ retrain_model (M := unit) scenario_store (module_import None) =
     ({| rf_model := Some tt; model_file := None |}, [retraining],
      Err (ValueError "Input contains NaN.")).
Proof.
  split.
  - apply (proj1 (failed_retrain (M := option pyval) short_price_store
                    (module_import (Some (Some (PInt 0)))))).
    vm_compute. reflexivity.
  - refine (proj2 (failed_retrain (M := unit) scenario_store
                     (module_import None))
              [[PFloat 0.8%float; PFloat 0.2%float; PInt 2;
                PInt 0; PInt 0; PInt 0; PInt 0; PInt 0; PInt 0; PInt 0;
                PInt 0; PInt 0; PInt 0; PInt 0; PInt 0; PInt 0; PInt 0;
                PInt 0; PInt 1; PInt 0; PInt 1; PInt 3]] [PInt 1]
              (ValueError "Input contains NaN.") _ _ _).
    + vm_compute. reflexivity.
    + discriminate.
    + reflexivity.
Defined.

(** ** More on the two encoders *)

Ltac ascii_texts :=
  repeat first [ reflexivity | constructor
               | progress (unfold is_ascii; cbn) ].

(** The two paths build the same vector from a stored user and a stored
    search when nothing is NULL and the entries need no normalising: the
    biases are numbers, the emotion and the diet are texts, the cuisines
    and tastes are lists of ASCII texts already in title case, and the
    price range is a pair of integers. *)
Theorem encoders_agree_on_ascii_title_case (user_row : UserRow)
    (search_row : SearchRow) (temperature tourist : float)
    (emotion diet : string) (cuisines tastes : list string)
    (price_min price_max : Z) :
  u_temperature_bias user_row = PFloat temperature ->
  is_nan temperature = false ->
  u_tourist_bias user_row = PFloat tourist ->
  is_nan tourist = false ->
  u_emotion user_row = PStr emotion ->
  s_cuisines search_row = strings cuisines ->
  Forall is_ascii cuisines ->
  Forall (fun c => title c = c) cuisines ->
  s_tastes search_row = strings tastes ->
  Forall is_ascii tastes ->
  Forall (fun t => title t = t) tastes ->
  s_diet search_row = PStr diet ->
  s_price_range search_row = PList [PInt price_min; PInt price_max] ->
  training_feature_vector user_row search_row =
  prepare_feature_vector (user_info_of_row user_row)
    (recent_search_of_row search_row).
Proof.
  intros _ _ _ _ _ Hcuisines _ Htitle Htastes _ Htitle' _ Hprice.
  exact (encoders_agree_on_normalised user_row search_row cuisines tastes
           (PInt price_min) (PInt price_max) Hcuisines Htitle Htastes
           Htitle' Hprice).
Qed.

Lemma encoders_agree_on_ascii_title_case_witness :
  training_feature_vector scenario_user_row
    {| s_user_id := 1; s_cuisines := strings ["Italian"; "Thai"];
       s_tastes := strings ["Umami"]; s_diet := PStr "Vegan";
       s_price_range := PList [PInt 2; PInt 3] |} =
  prepare_feature_vector (user_info_of_row scenario_user_row)
    (recent_search_of_row
       {| s_user_id := 1; s_cuisines := strings ["Italian"; "Thai"];
          s_tastes := strings ["Umami"]; s_diet := PStr "Vegan";
          s_price_range := PList [PInt 2; PInt 3] |}).
Proof.
  apply (encoders_agree_on_ascii_title_case scenario_user_row
           {| s_user_id := 1; s_cuisines := strings ["Italian"; "Thai"];
              s_tastes := strings ["Umami"]; s_diet := PStr "Vegan";
              s_price_range := PList [PInt 2; PInt 3] |}
           0.8%float 0.2%float "happy" "Vegan" ["Italian"; "Thai"] ["Umami"]
           2 3);
    ascii_texts.
Defined.

(** A vector has 22 entries on either path: 3 of the user, 8 cuisine
    flags, 6 taste flags, 3 diet flags and the price pair. *)
Theorem feature_vector_width :
  (forall user_row search_row v,
     training_feature_vector user_row search_row = Ok v ->
     length v = 22%nat)
  /\ (forall user_info recent_search v,
        prepare_feature_vector user_info recent_search = Ok v ->
        length v = 22%nat).
Proof.
  split; [apply training_vector_width | apply prediction_vector_width].
Qed.

Lemma feature_vector_width_witness :
  length ([PFloat 0.8%float; PFloat 0.2%float; PInt 2]
            ++ (PInt <$> [1; 0; 0; 0; 0; 0; 0; 0; 0; 0; 0; 0; 0; 0;
                          0; 1; 0; 1; 3])) = 22%nat.
Proof.
  apply (proj2 feature_vector_width scenario_user scenario_search).
  vm_compute. reflexivity.
Defined.

Lemma mapM_result_Forall {A B : Type} (f : A -> result B) (P : B -> Prop)
    (l : list A) (l' : list B) :
  (forall a b, f a = Ok b -> P b) -> mapM f l = Ok l' -> Forall P l'.
Proof.
  intros Hf. revert l'. induction l as [| a l IH]; intros l' Hl; cbn in Hl.
  - inversion Hl. constructor.
  - apply bind_Ok in Hl as (b & Hb & Hl).
    apply bind_Ok in Hl as (k & Hk & Hl).
    inversion Hl; subst. constructor; [by apply (Hf a) | by apply IH].
Qed.

Lemma one_hot_flags (vocabulary : list string) (container : pyval)
    (flags : list pyval) :
  one_hot vocabulary container = Ok flags -> Forall is_flag flags.
Proof.
  apply mapM_result_Forall. intros w v Hv.
  apply bind_Ok in Hv as (b & _ & Hv). inversion Hv.
  destruct b; [by right | by left].
Qed.


Ltac flags_of_vector :=
  repeat match goal with
    | H : one_hot _ _ = Ok _ |- _ =>
        let Hflags := fresh "Hflags" in
        pose proof (one_hot_flags _ _ _ H) as Hflags;
        apply one_hot_length in H
    end;
  repeat match goal with
    | H : length ?l = length _ |- _ =>
        do 9 (try (destruct l as [| ? l]; try discriminate)); clear H
    end;
  repeat match goal with
    | H : Forall _ (_ :: _) |- _ =>
        let Hx := fresh "Hx" in apply Forall_cons in H as [Hx H]
    end;
  cbn [app drop take];
  repeat (apply Forall_cons_2;
          [assumption || (destruct (str_eq _ _); [by right | by left]) |]);
  apply Forall_nil_2.

(** Between the emotion code and the price pair every entry is a flag:
    entries 3 to 19 of a vector are 0 or 1, on both paths. *)
Theorem one_hot_entries_are_flags :
  (forall user_row search_row v,
     training_feature_vector user_row search_row = Ok v ->
     Forall is_flag (take 17 (drop 3 v)))
  /\ (forall user_info recent_search v,
        prepare_feature_vector user_info recent_search = Ok v ->
        Forall is_flag (take 17 (drop 3 v))).
Proof.
  split.
  - intros user_row search_row v Hv.
    unfold training_feature_vector, training_user_features,
      training_search_features in Hv.
    invert_binds. flags_of_vector.
  - intros user_info recent_search v Hv.
    unfold prepare_feature_vector, prediction_user_features,
      prediction_search_features in Hv.
    invert_binds. flags_of_vector.
Qed.

Lemma one_hot_entries_are_flags_witness :
  Forall is_flag (take 17 (drop 3
    ([PFloat 0.8%float; PFloat 0.2%float; PInt 2]
       ++ (PInt <$> [1; 0; 0; 0; 0; 0; 0; 0; 0; 0; 0; 0; 0; 0;
                     0; 1; 0; 1; 3])))).
Proof.
  apply (proj2 one_hot_entries_are_flags scenario_user scenario_search).
  vm_compute. reflexivity.
Defined.

Lemma to_lower_cases (c : ascii) :
  to_lower (to_lower c) = to_lower c
  /\ to_upper (to_lower c) = to_upper c
  /\ is_cased (to_lower c) = is_cased c.
Proof.
  destruct c as [[] [] [] [] [] [] [] []]; repeat split.
Qed.

Lemma title_from_lowercase (previous_is_cased : bool) (s : string) :
  title_from previous_is_cased (lowercase s) = title_from previous_is_cased s.
Proof.
  revert previous_is_cased. induction s as [| c s IH];
    intros previous_is_cased; [reflexivity |].
  cbn [lowercase title_from].
  destruct (to_lower_cases c) as (Hlower & Hupper & Hcased).
  rewrite Hcased, IH. by destruct previous_is_cased; rewrite ?Hlower, ?Hupper.
Qed.

Lemma title_up_to_case (l l' : list string) :
  lowercase <$> l = lowercase <$> l' -> title <$> l = title <$> l'.
Proof.
  intros Hsame.
  assert (forall k : list string,
            title <$> k = title <$> (lowercase <$> k)) as Hlower.
  { intros k. rewrite <- list_fmap_compose. apply list_fmap_ext.
    intros _ s _. cbn. unfold title. by rewrite title_from_lowercase. }
  by rewrite (Hlower l), (Hlower l'), Hsame.
Qed.

(** The prediction path does not see the case of letters: two searches
    whose cuisines and tastes are the same up to case, and which agree
    elsewhere, give the same nineteen entries. *)
Theorem prediction_ignores_case (recent_search : gmap string pyval)
    (cuisines cuisines' tastes tastes' : list string) :
  lowercase <$> cuisines = lowercase <$> cuisines' ->
  lowercase <$> tastes = lowercase <$> tastes' ->
  prediction_search_features
    (<["cuisines" := strings cuisines]>
       (<["tastes" := strings tastes]> recent_search)) =
  prediction_search_features
    (<["cuisines" := strings cuisines']>
       (<["tastes" := strings tastes']> recent_search)).
Proof.
  intros Hc%title_up_to_case Ht%title_up_to_case.
  unfold prediction_search_features.
  rewrite !lookup_insert_eq.
  rewrite !(lookup_insert_ne _ "cuisines" "tastes") by done.
  rewrite !(lookup_insert_ne _ "cuisines" "diet") by done.
  rewrite !(lookup_insert_ne _ "cuisines" "price_range") by done.
  rewrite !lookup_insert_eq.
  rewrite !(lookup_insert_ne _ "tastes" "diet") by done.
  rewrite !(lookup_insert_ne _ "tastes" "price_range") by done.
  cbn [from_option id]. by rewrite !title_all_strings, Hc, Ht.
Qed.

Lemma prediction_ignores_case_witness :
  prediction_search_features
    (<["cuisines" := strings ["THAI"; "italian"]]>
       (<["tastes" := strings ["sPiCy"]]> scenario_search)) =
  prediction_search_features
    (<["cuisines" := strings ["Thai"; "Italian"]]>
       (<["tastes" := strings ["Spicy"]]> scenario_search)).
Proof.
  apply (prediction_ignores_case scenario_search ["THAI"; "italian"]
           ["Thai"; "Italian"] ["sPiCy"] ["Spicy"]); reflexivity.
Defined.

(** For a selection made in the search form both paths set the same
    cuisine flags. The flags of Asian, European and Mediterranean are 0
    for every selection, the form not offering them, and the cuisines it
    offers beyond the vocabulary set no flag. *)
Theorem form_selection_flags (selection : list string) :
  (forall c, c ∈ selection -> c ∈ cuisine_options) ->
  let flag w := PInt (if bool_decide (w ∈ selection) then 1 else 0) in
  let flags := [flag "Italian"; flag "American"; flag "Mexican";
                flag "Japanese"; PInt 0; PInt 0; PInt 0; flag "Thai"] in
  one_hot all_cuisines (strings selection) = Ok flags
  /\ title_all (strings selection) ≫= one_hot all_cuisines = Ok flags.
Proof.
  intros Hoptions flag flags.
  assert (title <$> selection = selection) as Htitle.
  { apply title_fixed. apply Forall_forall. intros c Hc.
    specialize (Hoptions c Hc). unfold cuisine_options in Hoptions.
    elem_cases; reflexivity. }
  assert (one_hot all_cuisines (strings selection) = Ok flags) as Hflags.
  { assert (forall w, w ∉ cuisine_options ->
                      bool_decide (w ∈ selection) = false) as Hnot.
    { intros w Hw. apply bool_decide_eq_false_2. intros Hin.
      by apply Hw, Hoptions. }
    rewrite training_flags. unfold flags, flag, all_cuisines.
    cbn [fmap list_fmap].
    rewrite (Hnot "Asian"), (Hnot "European"), (Hnot "Mediterranean");
      [reflexivity | ..];
      unfold cuisine_options; intros Hin; elem_cases. }
  split; [exact Hflags |].
  by rewrite title_all_strings, bind_Ok_l, Htitle.
Qed.

Lemma form_selection_flags_witness :
  one_hot all_cuisines (strings ["Thai"; "Greek"]) =
    Ok (PInt <$> [0; 0; 0; 0; 0; 0; 0; 1])
  /\ title_all (strings ["Thai"; "Greek"]) ≫= one_hot all_cuisines =
     Ok (PInt <$> [0; 0; 0; 0; 0; 0; 0; 1]).
Proof.
  apply (form_selection_flags ["Thai"; "Greek"]).
  intros c Hc. elem_cases; unfold cuisine_options; repeat constructor.
Defined.

(** ** Extraction over stores with the types of the schema *)







(** On the store of the witness: the interaction of user 3, who has not
    searched, leaves no row, and that of user 1 leaves the vector of the
    later of the two searches. *)
Lemma typed_partial_store_extraction :
  prepare_training_data typed_partial_store =
  Ok ([[PFloat 0.8%float; PFloat 0.2%float; PInt 2]
         ++ (PInt <$> [0; 0; 0; 0; 0; 0; 0; 1; 0; 0; 0; 0; 0; 1;
                       1; 0; 0; 2; 3])],
      [PInt 1]).
Proof. vm_compute. reflexivity. Qed.


(** ** The launcher *)

Lemma swipes_from (user_id : Z) (clicks : list (bool * bool)) (index : Z)
    (st : Store) :
  0 <= index <= 8 ->
  let '(index', st') := swipes user_id clicks index st in
  index <= index' <= 8
  /\ user_records st' = user_records st
  /\ search_records st' = search_records st
  /\ exists recorded,
       interaction_records st' = interaction_records st ++ recorded
       /\ ir_meal_id <$> recorded =
          take (Z.to_nat (index' - index))
            (drop (Z.to_nat index) all_cuisines)
       /\ Forall (fun r => i_user_id (ir_row r) = user_id
                           /\ is_flag (i_feedback (ir_row r))) recorded.
Proof.
  revert index st. induction clicks as [| [left_clicked right_clicked] rest IH];
    intros index st Hindex.
  - cbn. split; [lia |]. split; [done |]. split; [done |].
    exists []. by rewrite app_nil_r, Z.sub_diag.
  - cbn [swipes]. unfold swipe.
    destruct (decide (index < Z.of_nat (length images))) as [Hlt | Hge];
      [rewrite bool_decide_eq_true_2 by done
      | rewrite bool_decide_eq_false_2 by done; by apply IH].
    destruct (left_clicked || right_clicked) eqn:Hclicked; [| by apply IH].
    cbn in Hlt.
    specialize (IH (index + 1)
                  (record_interaction user_id index
                     (PInt (if left_clicked then 1 else 0)) st)).
    destruct (swipes user_id rest (index + 1) _) as [index' st'].
    destruct IH as (Hrange & Husers & Hsearches & recorded & Hrecorded
                    & Hmeals & Hrows); [lia |].
    split; [lia |]. split; [done |]. split; [done |].
    eexists (_ :: recorded). split; [| split].
    + rewrite Hrecorded. unfold record_interaction.
      cbn [interaction_records]. by rewrite <- app_assoc.
    + rewrite fmap_cons, Hmeals. cbn [ir_meal_id].
      rewrite meal_id_map_lookup, bool_decide_eq_true_2 by lia.
      assert (exists cuisine,
                all_cuisines !! Z.to_nat index = Some cuisine)
        as (cuisine & Hcuisine).
      { apply lookup_lt_is_Some. cbn. lia. }
      rewrite Hcuisine, (drop_S _ _ _ Hcuisine).
      replace (Z.to_nat (index' - index))
        with (S (Z.to_nat (index' - (index + 1)))) by lia.
      replace (Z.to_nat (index + 1)) with (S (Z.to_nat index)) by lia.
      reflexivity.
    + constructor; [| done]. split; [reflexivity |].
      cbn. destruct left_clicked; [by right | by left].
Qed.

(** Whatever is clicked in the carousel of a new user, the interactions
    it records are labelled with the first cuisines of the vocabulary, in
    their order, one for each image passed; there are at most eight of
    them, none is labelled ["Unknown"], each carries the user and a
    feedback of 0 or 1, and users and searches are not written. *)
Theorem carousel_records_the_vocabulary (user_id : Z)
    (clicks : list (bool * bool)) (st : Store) :
  let '(index, st') := swipes user_id clicks 0 st in
  0 <= index <= 8
  /\ user_records st' = user_records st
  /\ search_records st' = search_records st
  /\ exists recorded,
       interaction_records st' = interaction_records st ++ recorded
       /\ ir_meal_id <$> recorded = take (Z.to_nat index) all_cuisines
       /\ Forall (fun r => i_user_id (ir_row r) = user_id
                           /\ is_flag (i_feedback (ir_row r))) recorded.
Proof.
  pose proof (swipes_from user_id clicks 0 st) as Hfrom.
  destruct (swipes user_id clicks 0 st) as [index st'].
  destruct Hfrom as (Hrange & Husers & Hsearches & recorded & Hrecorded
                     & Hmeals & Hrows); [lia |].
  split; [lia |]. split; [done |]. split; [done |].
  exists recorded. split; [done |]. split; [| done].
  by rewrite Hmeals, Z.sub_0_r.
Qed.

Lemma elem_of_concat {A : Type} (x : A) (l : list A) (ls : list (list A)) :
  x ∈ l -> l ∈ ls -> x ∈ concat ls.
Proof.
  intros Hx. induction ls as [| k ls IH]; intros Hl; [inversion Hl |].
  cbn. apply elem_of_app. apply elem_of_cons in Hl as [<- | Hl];
    [by left | right; by apply IH].
Qed.

Lemma well_formed_after_save (user_id : Z)
    (cuisines tastes diet price_range location emotion : pyval) (now : Z)
    (st : Store) :
  well_formed (tables st) ->
  is_container cuisines = true -> is_container tastes = true ->
  has_two_items price_range = true ->
  well_formed (tables (save_search_query user_id cuisines tastes diet
                         price_range location emotion now st)).
Proof.
  intros (Husers & Hemotions & Hsearches) Hc Ht Hp.
  split; [| split]; [exact Husers | exact Hemotions |].
  intros s Hs. cbn in Hs. rewrite fmap_app in Hs.
  apply elem_of_app in Hs as [Hs | Hs]; [by apply Hsearches |].
  cbn in Hs. elem_cases. by cbn.
Qed.

Lemma submitted_search_fit `{Estimator M} (location : string)
    (user_id : Z) (feeling : option pyval)
    (cuisines tastes diet price_range : pyval) (now : Z) (st : Store)
    (ml : MLState M) (rated : InteractionRecord) :
  location <> EmptyString ->
  user_id <> 0 ->
  well_formed (tables st) ->
  is_container cuisines = true -> is_container tastes = true ->
  has_two_items price_range = true ->
  rated ∈ interaction_records st ->
  i_user_id (ir_row rated) = user_id ->
  let st' := save_search_query user_id cuisines tastes diet price_range
               (PStr location) (default (PStr "neutral") feeling) now st in
  exists X y,
    prepare_training_data (tables st') = Ok (X, y)
    /\ X <> []
    /\ find_restaurants_submit location (Some user_id) feeling cuisines
         tastes diet price_range now st ml =
       (st',
        match fit new_estimator X y with
        | Ok model =>
            ({| rf_model := Some model; model_file := Some model |},
             [retraining; model_saved; retrained], Ok tt)
        | Err e =>
            ({| rf_model := Some new_estimator;
                model_file := model_file ml |}, [retraining], Err e)
        end).
Proof.
  intros Hlocation Huser Hstore Hc Ht Hp Hrated Hid st'.
  pose proof (well_formed_after_save user_id cuisines tastes diet
                price_range (PStr location)
                (default (PStr "neutral") feeling) now st Hstore Hc Ht Hp)
    as Hstore'.
  fold st' in Hstore'.
  destruct (training_loop_contributions (tables st')
              (Interactions (tables st')) Hstore')
    as (contributions & Hall & Hloop); [done |].
  specialize (Hloop ([], [])). cbn [fst snd app] in Hloop.
  exists (concat contributions).*1, (concat contributions).*2.
  split; [exact Hloop |].
  assert ((concat contributions).*1 <> []) as HX.
  { assert (ir_row rated ∈ Interactions (tables st')) as Hin
      by (cbn; by apply list_elem_of_fmap_2).
    apply list_elem_of_lookup_1 in Hin as (k & Hk).
    destruct (Forall2_lookup_l _ _ _ _ _ Hall Hk) as (pairs & Hpairs & Hcontr).
    unfold contribution in Hcontr. rewrite Hid in Hcontr.
    assert (exists saved, last (searches_of (tables st') user_id)
                          = Some saved) as (saved & Hlast).
    { rewrite searches_of_tables. unfold st'.
      rewrite search_records_of_save, decide_True by reflexivity.
      rewrite fmap_app. cbn [fmap list_fmap]. rewrite last_snoc.
      by eexists. }
    rewrite Hlast in Hcontr.
    destruct Hcontr as (user_row & v & _ & _ & ->).
    apply list_elem_of_lookup_2 in Hpairs.
    intros Hempty. apply fmap_nil_inv in Hempty.
    assert ((v, i_feedback (ir_row rated)) ∈ concat contributions) as Hv.
    { apply (elem_of_concat _ [(v, i_feedback (ir_row rated))]);
        [left | exact Hpairs]. }
    rewrite Hempty in Hv. inversion Hv. }
  split; [exact HX |].
  unfold find_restaurants_submit.
  rewrite !bool_decide_eq_true_2 by done. fold st'. f_equal.
  unfold retrain_model. unfold prepare_training_data. rewrite Hloop.
  assert ((concat contributions).*2 <> []) as Hy.
  { intros Hempty. apply fmap_nil_inv in Hempty. rewrite Hempty in HX.
    by apply HX. }
  rewrite !bool_decide_eq_false_2;
    [| by destruct ((concat contributions).*2)
     | by destruct ((concat contributions).*1)].
  cbn [orb]. by destruct (fit new_estimator _ _).
Qed.

Lemma typed_store_after_save (user_id : Z) (cuisines tastes : list string)
    (diet : pyval) (price_min price_max : Z) (location emotion : pyval)
    (now : Z) (st : Store) :
  typed_store (tables st) ->
  typed_store
    (tables (save_search_query user_id (strings cuisines) (strings tastes)
               diet (PList [PInt price_min; PInt price_max]) location
               emotion now st)).
Proof.
  intros (Hinteractions & Husers & Hsearches).
  split; [| split]; [exact Hinteractions | exact Husers |].
  intros s Hs. cbn in Hs. rewrite fmap_app in Hs.
  apply elem_of_app in Hs as [Hs | Hs]; [by apply Hsearches |].
  cbn in Hs. elem_cases. by exists cuisines, tastes, price_min, price_max.
Qed.

(** A search submitted from the form (a location, lists of texts for
    cuisines and tastes, a text for the diet, a pair of integers for the
    price range) by the user of the session, who has rated at least one
    cuisine, over a store whose rows have the types of the schema,
    always gives the classifier rows to fit: the search is saved, the
    extraction over the new store returns a dataset that is not empty,
    and the retrain ends as the fit does, never with the message of
    insufficient data. *)
Theorem submitted_search_reaches_the_fit `{Estimator M} (location : string)
    (user_id : Z) (feeling : option string) (cuisines tastes : list string)
    (diet : string) (price_min price_max now : Z) (st : Store)
    (ml : MLState M) (rated : InteractionRecord) :
  location <> EmptyString ->
  user_id <> 0 ->
  int64 user_id ->
  typed_store (tables st) ->
  rated ∈ interaction_records st ->
  i_user_id (ir_row rated) = user_id ->
  let price_range := PList [PInt price_min; PInt price_max] in
  let st' := save_search_query user_id (strings cuisines) (strings tastes)
               (PStr diet) price_range (PStr location)
               (default (PStr "neutral") (PStr <$> feeling)) now st in
  exists X y,
    prepare_training_data (tables st') = Ok (X, y)
    /\ X <> []
    /\ find_restaurants_submit location (Some user_id) (PStr <$> feeling)
         (strings cuisines) (strings tastes) (PStr diet) price_range now st
         ml =
       (st',
        match fit new_estimator X y with
        | Ok model =>
            ({| rf_model := Some model; model_file := Some model |},
             [retraining; model_saved; retrained], Ok tt)
        | Err e =>
            ({| rf_model := Some new_estimator;
                model_file := model_file ml |}, [retraining], Err e)
        end).
Proof.
  intros Hlocation Huser _ Hstore%typed_store_well_formed Hrated Hid.
  exact (submitted_search_fit location user_id (PStr <$> feeling)
           (strings cuisines) (strings tastes) (PStr diet)
           (PList [PInt price_min; PInt price_max]) now st ml rated
           Hlocation Huser Hstore eq_refl eq_refl eq_refl Hrated Hid).
Qed.

Lemma rated_store_typed : typed_store (tables rated_store).
Proof.
  unfold typed_store. split; [| split]; intros x Hx; vm_compute in Hx;
    inversion Hx as [| ? ? ? Hnil]; subst; try (inversion Hnil).
  - split; [| by eexists]. eexists. split; [left | reflexivity].
  - split; [by eexists |]. split; by eexists.
Qed.

Lemma submitted_search_reaches_the_fit_witness :
  exists X y,
    prepare_training_data (tables first_search_store) = Ok (X, y)
    /\ X <> []
    /\ find_restaurants_submit (M := option pyval) "Bern" (Some 1)
         (Some (PStr "sad")) (strings ["Italian"]) (PList []) (PStr "None")
         (PList [PInt 1; PInt 4]) 100 rated_store (module_import None) =
       (first_search_store,
        match fit (M := option pyval) new_estimator X y with
        | Ok model =>
            ({| rf_model := Some model; model_file := Some model |},
             [retraining; model_saved; retrained], Ok tt)
        | Err e =>
            ({| rf_model := Some new_estimator; model_file := None |},
             [retraining], Err e)
        end).
Proof.
  apply (submitted_search_reaches_the_fit (M := option pyval) "Bern" 1
           (Some "sad") ["Italian"] [] "None" 1 4 100 rated_store
           (module_import None)
           {| ir_row := {| i_user_id := 1; i_feedback := PInt 1 |};
              ir_meal_id := "Italian" |});
    try reflexivity; try discriminate.
  - unfold int64. lia.
  - exact rated_store_typed.
  - vm_compute. left.
Defined.

(** ** Every store the launcher writes *)

Lemma users_of_grows (st st' : Store) (added : list UserRecord)
    (user_id : Z) :
  user_records st' = user_records st ++ added ->
  users_of (tables st) user_id <> [] -> users_of (tables st') user_id <> [].
Proof.
  rewrite !users_of_tables. intros -> Hfound.
  rewrite filter_app, fmap_app. intros [Hnil _]%app_eq_nil. by apply Hfound.
Qed.

Lemma users_of_update_user_found (user_id other : Z)
    (set : UserRecord -> UserRecord) (st : Store) :
  (forall u, u_user_id (ur_row (set u)) = u_user_id (ur_row u)) ->
  users_of (tables st) other <> [] ->
  users_of (tables (update_user user_id set st)) other <> [].
Proof.
  intros Hid. rewrite users_of_update_user by done. rewrite users_of_tables.
  intros Hfound Hnil%fmap_nil_inv. apply Hfound. by rewrite Hnil.
Qed.

Lemma update_user_emotions (user_id : Z) (set : UserRecord -> UserRecord)
    (st : Store) :
  (forall u, (exists e, u_emotion (ur_row u) = PStr e) ->
             exists e, u_emotion (ur_row (set u)) = PStr e) ->
  (forall u, u ∈ user_records st -> exists e, u_emotion (ur_row u) = PStr e) ->
  forall u, u ∈ user_records (update_user user_id set st) ->
            exists e, u_emotion (ur_row u) = PStr e.
Proof.
  intros Hset Hall u Hu. unfold update_user in Hu. cbn in Hu.
  apply list_elem_of_fmap in Hu as (v & -> & Hv).
  case_decide; [apply Hset |]; by apply Hall.
Qed.

Lemma form_values_title_case (selection options : list string) :
  Forall (fun w => title w = w) options ->
  (forall c, c ∈ selection -> c ∈ options) ->
  Forall (fun c => title c = c) selection.
Proof.
  intros Hoptions Hsel. apply Forall_forall. intros c Hc.
  by apply (proj1 (Forall_forall _ _) Hoptions), Hsel.
Qed.

Lemma user_id_of_record (u : UserRecord) :
  user_info_of_record u !! "user_id" = Some (PInt (u_user_id (ur_row u))).
Proof. reflexivity. Qed.

Lemma launcher_step_keeps_invariant `{JsonWriter} (s s' : Session) :
  launcher_step s s' -> launcher_invariant s -> launcher_invariant s'.
Proof.
  intros Hstep (Hrated & Hemotions & Hsearches & Hsession).
  destruct Hstep as
    [s
    | s username user_info is_new st' user_id _ Hcreate Hid
    | s user_id mood Huser Hmood
    | s user_id left_clicked right_clicked index' st' Huser Hswipe
    | s user_id q1 q2 q3 st' Huser _ _ _ Hsave
    | s user_id cuisines tastes diet location price_min price_max emotion now
        Huser _ _ Hcuisines Htastes _ _];
    unfold launcher_invariant; cbn [store session_user_id].
  - split; [done |]. split; [done |]. split; [done |]. intros ? [=].
  - unfold get_or_create_user in Hcreate.
    destruct (filter _ (user_records (store s))) as [| row rows] eqn:Hfound.
    + inversion Hcreate; subst; clear Hcreate.
      rewrite user_id_of_record in Hid. inversion Hid; subst; clear Hid.
      split; [| split; [| split]].
      * intros i Hi. eapply users_of_grows; [reflexivity | by apply Hrated].
      * intros u Hu. cbn in Hu. apply elem_of_app in Hu as [Hu | Hu];
          [by apply Hemotions |]. elem_cases. by eexists.
      * exact Hsearches.
      * intros user_id Heq. inversion Heq; subst.
        rewrite users_of_tables. cbn [user_records].
        rewrite filter_app, fmap_app. intros [_ Hnil]%app_eq_nil.
        cbn in Hnil. rewrite decide_True in Hnil by reflexivity.
        discriminate.
    + inversion Hcreate; subst; clear Hcreate.
      rewrite user_id_of_record in Hid. inversion Hid; subst; clear Hid.
      split; [done |]. split; [done |]. split; [done |].
      intros user_id Heq. inversion Heq; subst.
      rewrite users_of_tables.
      assert (row ∈ filter (fun u => ur_username u = username)
                (user_records (store s))) as Hrow by (rewrite Hfound; left).
      apply list_elem_of_filter in Hrow as [_ Hrow].
      intros Hnil%fmap_nil_inv.
      by apply (filter_nil_not_elem_of _ _ row Hnil).
  - unfold save_user_setup. split; [| split; [| split]].
    + intros i Hi. apply users_of_update_user_found; [done |].
      by apply Hrated.
    + apply update_user_emotions; [| done]. intros u _. by eexists.
    + exact Hsearches.
    + intros other Heq. inversion Heq; subst.
      apply users_of_update_user_found; [done |]. by apply Hsession.
  - unfold swipe in Hswipe.
    assert (st' = store s
            \/ exists index feedback,
                 st' = record_interaction user_id index feedback (store s))
      as [-> | (index & feedback & ->)].
    { repeat case_match; inversion Hswipe; subst; eauto. }
    + split; [done |]. split; [done |]. split; [done |].
      intros other Heq. inversion Heq; subst. by apply Hsession.
    + split; [| split; [| split]].
      * intros i Hi. cbn in Hi. apply elem_of_app in Hi as [Hi | Hi];
          [by apply Hrated |]. elem_cases. by apply Hsession.
      * exact Hemotions.
      * exact Hsearches.
      * intros other Heq. inversion Heq; subst. by apply Hsession.
  - unfold save_user_preferences in Hsave.
    apply bind_Ok in Hsave as (temperature_bias & _ & Hsave).
    apply bind_Ok in Hsave as (tourist_bias & _ & Hsave).
    inversion Hsave; subst; clear Hsave.
    split; [| split; [| split]].
    + intros i Hi. apply users_of_update_user_found; [done |].
      by apply Hrated.
    + apply update_user_emotions; [| done]. by intros u He.
    + exact Hsearches.
    + intros other Heq. inversion Heq; subst.
      apply users_of_update_user_found; [done |]. by apply Hsession.
  - split; [done |]. split; [done |]. split.
    + intros r Hr. cbn in Hr. apply elem_of_app in Hr as [Hr | Hr];
        [by apply Hsearches |]. elem_cases.
      exists cuisines, tastes, (PInt price_min), (PInt price_max).
      split; [reflexivity |]. split.
      { apply (form_values_title_case _ cuisine_options);
          [repeat constructor | done]. }
      split; [reflexivity |]. split; [| reflexivity].
      apply (form_values_title_case _ all_tastes);
        [repeat constructor | done].
    + intros other Heq. inversion Heq; subst. by apply Hsession.
Qed.

Lemma launcher_invariant_reachable `{JsonWriter} (s : Session) :
  rtc launcher_step first_visit s -> launcher_invariant s.
Proof.
  revert s. apply rtc_ind_r.
  - unfold launcher_invariant. cbn.
    split; [| split; [| split]]; intros x Hx; inversion Hx.
  - intros s s' _ Hstep IH. by apply (launcher_step_keeps_invariant s s').
Qed.

Lemma invariant_well_formed (s : Session) :
  launcher_invariant s -> well_formed (tables (store s)).
Proof.
  intros (Hrated & Hemotions & Hsearches & _). split; [| split].
  - intros i (r & -> & Hr)%list_elem_of_fmap. by apply Hrated.
  - intros u (r & -> & Hr)%list_elem_of_fmap.
    by destruct (Hemotions r Hr) as [e ->].
  - intros x (r & -> & Hr)%list_elem_of_fmap.
    destruct (Hsearches r Hr) as (cs & ts & a & b & -> & _ & -> & _ & ->).
    done.
Qed.

Lemma ada_session_reachable :
  rtc (launcher_step (H := plain_json_writer)) first_visit ada_session.
Proof.
  apply (rtc_l _ _ {| store := ada_store; session_user_id := Some 1;
                      session_index := 0 |}).
  { apply (username_entered first_visit "ada"
             (user_info_of_record (new_user 1 "ada")) true ada_store 1);
      [discriminate | reflexivity | reflexivity]. }
  apply (rtc_l _ _ {| store := rated_store; session_user_id := Some 1;
                      session_index := 1 |}).
  { apply (carousel_run
             {| store := ada_store; session_user_id := Some 1;
                session_index := 0 |} 1 true false 1 rated_store);
      reflexivity. }
  apply rtc_once.
  apply (search_submitted
           {| store := rated_store; session_user_id := Some 1;
              session_index := 1 |}
           1 ["Italian"] [] "None" "Bern" 1 4 (PStr "sad") 100); try done.
  - intros c Hc. elem_cases. unfold cuisine_options. repeat constructor.
  - intros t Ht. inversion Ht.
  - unfold diets. repeat constructor.
Qed.

(** Every store the launcher can reach from a new file is well formed:
    its interactions belong to stored users, its emotions are strings and
    its searches have the shape the form gives them. On such a store the
    extraction raises nothing. *)
Theorem launcher_stores_extract `{JsonWriter} (s : Session) :
  rtc launcher_step first_visit s ->
  well_formed (tables (store s))
  /\ exists X y, prepare_training_data (tables (store s)) = Ok (X, y).
Proof.
  intros Hinv%launcher_invariant_reachable%invariant_well_formed.
  split; [exact Hinv |].
  destruct (training_loop_contributions (tables (store s))
              (Interactions (tables (store s))) Hinv)
    as (contributions & _ & Hloop); [done |].
  do 2 eexists. unfold prepare_training_data. by rewrite Hloop.
Qed.

Lemma launcher_stores_extract_witness :
  well_formed (tables first_search_store)
  /\ exists X y, prepare_training_data (tables first_search_store) = Ok (X, y).
Proof.
  apply (launcher_stores_extract (H := plain_json_writer) ada_session).
  exact ada_session_reachable.
Defined.

Lemma normalised_search_features (search_row : SearchRow) :
  normalised search_row ->
  exists search_part,
    training_search_features search_row = Ok search_part
    /\ prediction_search_features (recent_search_of_row search_row)
       = Ok search_part.
Proof.
  intros (cs & ts & a & b & Hc & Hcs%title_fixed & Ht & Hts%title_fixed & Hp).
  unfold training_search_features, prediction_search_features.
  change (recent_search_of_row search_row !! "cuisines")
    with (Some (s_cuisines search_row)).
  change (recent_search_of_row search_row !! "tastes")
    with (Some (s_tastes search_row)).
  change (recent_search_of_row search_row !! "diet")
    with (Some (s_diet search_row)).
  change (recent_search_of_row search_row !! "price_range")
    with (Some (s_price_range search_row)).
  cbn [from_option id]. rewrite Hc, Ht, Hp.
  repeat first [ rewrite title_all_strings | rewrite training_flags
               | rewrite bind_Ok_l | rewrite Hcs | rewrite Hts ].
  eexists. split; reflexivity.
Qed.

(** On every store the launcher can reach, the two paths build the same
    vector from any stored user and any stored search, and neither
    raises: what the form and the buttons write is in the shape on which
    training and prediction agree. *)
Theorem launcher_stores_encode_alike `{JsonWriter} (s : Session)
    (u : UserRecord) (r : SearchRecord) :
  rtc launcher_step first_visit s ->
  u ∈ user_records (store s) ->
  r ∈ search_records (store s) ->
  exists v,
    training_feature_vector (ur_row u) (sr_row r) = Ok v
    /\ prepare_feature_vector (user_info_of_row (ur_row u))
         (recent_search_of_row (sr_row r)) = Ok v.
Proof.
  intros (_ & Hemotions & Hsearches & _)%launcher_invariant_reachable Hu Hr.
  destruct (Hemotions u Hu) as [e He].
  destruct (normalised_search_features (sr_row r) (Hsearches r Hr))
    as (search_part & Htraining & Hprediction).
  unfold training_feature_vector, prepare_feature_vector.
  assert (prediction_user_features (user_info_of_row (ur_row u)) =
          training_user_features (ur_row u)) as -> by reflexivity.
  destruct (training_user_features_hashable (ur_row u)) as (code & ->);
    [by rewrite He |].
  rewrite !bind_Ok_l, Htraining, Hprediction. by eexists.
Qed.

Lemma launcher_stores_encode_alike_witness :
  exists v,
    training_feature_vector (ur_row (new_user 1 "ada"))
      {| s_user_id := 1; s_cuisines := strings ["Italian"];
         s_tastes := strings []; s_diet := PStr "None";
         s_price_range := PList [PInt 1; PInt 4] |} = Ok v
    /\ prepare_feature_vector (user_info_of_row (ur_row (new_user 1 "ada")))
         (recent_search_of_row
            {| s_user_id := 1; s_cuisines := strings ["Italian"];
               s_tastes := strings []; s_diet := PStr "None";
               s_price_range := PList [PInt 1; PInt 4] |}) = Ok v.
Proof.
  apply (launcher_stores_encode_alike (H := plain_json_writer) ada_session
           (new_user 1 "ada")
           {| sr_row := {| s_user_id := 1; s_cuisines := strings ["Italian"];
                           s_tastes := strings []; s_diet := PStr "None";
                           s_price_range := PList [PInt 1; PInt 4] |};
              sr_location := PStr "Bern"; sr_emotion := PStr "sad";
              sr_timestamp := 100 |}).
  - exact ada_session_reachable.
  - vm_compute. left.
  - vm_compute. left.
Defined.
